(** * Queue view-model of the restaurant dashboard (Queue.tsx)

    A shallow embedding of the logic of the Queue component: position
    assignment, slot parsing, the estimated-wait computation at join and on
    every one-second tick, the one-shot five-minute notice, the join and
    cancel handlers and the two persisted-state loaders.

    Conventions of the embedding.
    - Text is a [string] holding UTF-8; the en dash of a slot such as
      "6:00 PM – 6:30 PM" is the byte sequence E2 80 93.
    - A source [number] is [number]: an exact rational or [NaN]. Rounding to
      53 bits and the infinities are not represented.
    - A [Date] is its time value: [Some t] with [t] milliseconds since the
      epoch, or [None] for an Invalid Date.
    - What the browser decides is a field of [Host]: the offset of local
      time from UTC (taken constant: no daylight-saving change), the date
      parser outside the ISO date-only form, and the JSON parser.
    - React state is a record; a handler maps a state, the clock readings it
      takes and the outcome of its remote calls to the next state and the
      list of effects it performed. *)

From Stdlib Require Import ZArith QArith Qminmax Qround String Ascii List Bool.
From Stdlib Require Import Lia Lqa Permutation.
From Stdlib Require Import DecimalString DecimalZ.
Import ListNotations.

Set Warnings "-register-all".

Open Scope string_scope.
Open Scope Z_scope.

(* ------------------------------------------------------------------ *)
(** ** Strings *)

Module JsString.

Definition code (c : ascii) : N := N_of_ascii c.

(** White space and line terminators on one byte: TAB, LF, VT, FF, CR, SP. *)
Definition is_ws1 (c : ascii) : bool :=
  let n := code c in
  ((9 <=? n) && (n <=? 13) || (n =? 32))%N.

(** U+00A0. *)
Definition is_ws2 (c1 c2 : ascii) : bool :=
  ((code c1 =? 194) && (code c2 =? 160))%N.

(** U+1680, U+2000..U+200A, U+2028, U+2029, U+202F, U+205F, U+3000,
    U+FEFF. *)
Definition is_ws3 (c1 c2 c3 : ascii) : bool :=
  let a := code c1 in
  let b := code c2 in
  let c := code c3 in
  ((a =? 225) && (b =? 154) && (c =? 128)
   || (a =? 226) && (b =? 128)
      && ((128 <=? c) && (c <=? 138) || (c =? 168) || (c =? 169) || (c =? 175))
   || (a =? 226) && (b =? 129) && (c =? 159)
   || (a =? 227) && (b =? 128) && (c =? 128)
   || (a =? 239) && (b =? 187) && (c =? 191))%N.

(** [String.prototype.trimStart] on the byte list. *)
Fixpoint trimStartL (s : list ascii) : list ascii :=
  match s with
  | [] => []
  | c1 :: r1 =>
      if is_ws1 c1 then trimStartL r1
      else
        match r1 with
        | [] => s
        | c2 :: r2 =>
            if is_ws2 c1 c2 then trimStartL r2
            else
              match r2 with
              | [] => s
              | c3 :: r3 => if is_ws3 c1 c2 c3 then trimStartL r3 else s
              end
        end
  end.

(** The same scan on the reversed byte list, for [trimEnd]: a multi-byte
    white space is met last byte first. *)
Fixpoint trimStartRevL (s : list ascii) : list ascii :=
  match s with
  | [] => []
  | c1 :: r1 =>
      if is_ws1 c1 then trimStartRevL r1
      else
        match r1 with
        | [] => s
        | c2 :: r2 =>
            if is_ws2 c2 c1 then trimStartRevL r2
            else
              match r2 with
              | [] => s
              | c3 :: r3 => if is_ws3 c3 c2 c1 then trimStartRevL r3 else s
              end
        end
  end.

Definition trimStart (s : string) : string :=
  string_of_list_ascii (trimStartL (list_ascii_of_string s)).

(** [String.prototype.trim]. *)
Definition trim (s : string) : string :=
  string_of_list_ascii
    (rev (trimStartRevL (rev (trimStartL (list_ascii_of_string s))))).

(** Truthiness of a string: the empty string is falsy. *)
Definition truthy (s : string) : bool :=
  match s with EmptyString => false | String _ _ => true end.

(** Truthiness of an optional string field: [undefined] is falsy too. *)
Definition truthyO (o : option string) : bool :=
  match o with Some s => truthy s | None => false end.

(** [a || b] on an optional string with a string default. *)
Definition orElse (o : option string) (d : string) : string :=
  match o with
  | Some s => if truthy s then s else d
  | None => d
  end.

(** [a || b] where both sides are optional strings. *)
Definition orElseO (o p : option string) : option string :=
  if truthyO o then o else p.

Definition is_digit (c : ascii) : bool :=
  let n := code c in ((48 <=? n) && (n <=? 57))%N.

Definition digit_val (c : ascii) : Z := Z.of_N (code c) - 48.

(** Longest prefix of decimal digits, and what follows it. *)
Fixpoint span_digits (s : string) : string * string :=
  match s with
  | EmptyString => (EmptyString, EmptyString)
  | String c r =>
      if is_digit c
      then let (d, rest) := span_digits r in (String c d, rest)
      else (EmptyString, s)
  end.

(** Value of a string of decimal digits. *)
Fixpoint dec_value (acc : Z) (s : string) : Z :=
  match s with
  | EmptyString => acc
  | String c r => dec_value (10 * acc + digit_val c) r
  end.

Definition upper (c : ascii) : ascii :=
  let n := code c in
  if ((97 <=? n) && (n <=? 122))%N then ascii_of_N (n - 32) else c.

(** [String.prototype.toUpperCase] on ASCII letters. *)
Fixpoint toUpperCase (s : string) : string :=
  match s with
  | EmptyString => EmptyString
  | String c r => String (upper c) (toUpperCase r)
  end.

Definition cons_head (c : ascii) (l : list string) : list string :=
  match l with
  | x :: t => String c x :: t
  | [] => [String c EmptyString]
  end.

Definition is_hyphen (c : ascii) : bool := (code c =? 45)%N.

(** U+2013 EN DASH. *)
Definition is_endash (c1 c2 c3 : ascii) : bool :=
  ((code c1 =? 226) && (code c2 =? 128) && (code c3 =? 147))%N.

(** [timeSlot.split(/[–-]/)]: cut at every hyphen and every en dash. *)
Fixpoint splitDash (s : string) : list string :=
  match s with
  | EmptyString => [EmptyString]
  | String c1 r1 =>
      if is_hyphen c1 then EmptyString :: splitDash r1
      else
        match r1 with
        | String c2 (String c3 r3) =>
            if is_endash c1 c2 c3 then EmptyString :: splitDash r3
            else cons_head c1 (splitDash r1)
        | _ => cons_head c1 (splitDash r1)
        end
  end.

End JsString.

(* ------------------------------------------------------------------ *)
(** ** Numbers *)

Module JsNumber.

Inductive number : Type :=
| Num (q : Q)
| NaN.

Definition ofZ (z : Z) : number := Num (inject_Z z).

Definition nsub (a b : number) : number :=
  match a, b with
  | Num x, Num y => Num (x - y)
  | _, _ => NaN
  end.

Definition nmul (a b : number) : number :=
  match a, b with
  | Num x, Num y => Num (x * y)
  | _, _ => NaN
  end.

(** Division; the only divisor in the component is [1000 * 60]. A zero
    divisor, which the source language sends to an infinity, is given
    [NaN] here and never arises. *)
Definition ndiv (a b : number) : number :=
  match a, b with
  | Num x, Num y => if Qeq_bool y 0 then NaN else Num (x / y)
  | _, _ => NaN
  end.

(** [Math.max(a, b)]: [NaN] as soon as one argument is. *)
Definition Math_max (a b : number) : number :=
  match a, b with
  | Num x, Num y => Num (if Qle_bool x y then y else x)
  | _, _ => NaN
  end.

(** [a === b] on numbers: [NaN] equals nothing, not even itself. *)
Definition strict_eq (a b : number) : bool :=
  match a, b with
  | Num x, Num y => Qeq_bool x y
  | _, _ => false
  end.

(** [a <= b]; false when one side is [NaN]. *)
Definition nle (a b : number) : bool :=
  match a, b with
  | Num x, Num y => Qle_bool x y
  | _, _ => false
  end.

(** [a > b]; false when one side is [NaN]. *)
Definition ngt (a b : number) : bool :=
  match a, b with
  | Num x, Num y => negb (Qle_bool x y)
  | _, _ => false
  end.

(** The value relation used in statements: rationals up to [Qeq]. *)
Definition same (a b : number) : Prop :=
  match a, b with
  | Num x, Num y => (x == y)%Q
  | NaN, NaN => True
  | _, _ => False
  end.

(** [0 <= a] as a proposition; it fails at [NaN]. *)
Definition nonneg (a : number) : Prop :=
  match a with
  | Num x => (0 <= x)%Q
  | NaN => False
  end.

Definition is_hex_digit (c : ascii) : bool :=
  let n := JsString.code c in
  ((48 <=? n) && (n <=? 57) || (65 <=? n) && (n <=? 70)
   || (97 <=? n) && (n <=? 102))%N.

Definition hex_val (c : ascii) : Z :=
  let n := JsString.code c in
  if (n <=? 57)%N then Z.of_N n - 48
  else if (n <=? 70)%N then Z.of_N n - 55
  else Z.of_N n - 87.

Fixpoint span_hex (s : string) : string * string :=
  match s with
  | EmptyString => (EmptyString, EmptyString)
  | String c r =>
      if is_hex_digit c
      then let (d, rest) := span_hex r in (String c d, rest)
      else (EmptyString, s)
  end.

Fixpoint hex_value (acc : Z) (s : string) : Z :=
  match s with
  | EmptyString => acc
  | String c r => hex_value (16 * acc + hex_val c) r
  end.

(** Digits of [s] after the sign: a [0x]/[0X] prefix selects radix 16. *)
Definition parseInt_magnitude (s : string) : number :=
  match s with
  | String "0" (String x r) =>
      if (JsString.code x =? 120)%N || (JsString.code x =? 88)%N
      then
        let (d, _) := span_hex r in
        if JsString.truthy d then ofZ (hex_value 0 d) else NaN
      else
        let (d, _) := JsString.span_digits s in
        if JsString.truthy d then ofZ (JsString.dec_value 0 d) else NaN
  | _ =>
      let (d, _) := JsString.span_digits s in
      if JsString.truthy d then ofZ (JsString.dec_value 0 d) else NaN
  end.

(** [parseInt(s)] with no radix: leading white space, an optional sign,
    then the longest run of digits; [NaN] when there is none. *)
Definition parseInt (s : string) : number :=
  match JsString.trimStart s with
  | String c r =>
      if (JsString.code c =? 45)%N
      then nmul (ofZ (-1)) (parseInt_magnitude r)
      else if (JsString.code c =? 43)%N
           then parseInt_magnitude r
           else parseInt_magnitude (String c r)
  | EmptyString => NaN
  end.

End JsNumber.

(* ------------------------------------------------------------------ *)
(** ** JSON values, as [JSON.parse] returns them *)

Module Json.

Inductive json : Type :=
| JNull
| JBool (b : bool)
| JNumber (q : Q)
| JString (s : string)
| JArray (items : list json)
| JObject (fields : list (string * json)).

(** Property read [v[k]] on a parsed object; [None] is [undefined]. *)
Fixpoint lookup (k : string) (fields : list (string * json)) : option json :=
  match fields with
  | [] => None
  | (k', v) :: rest => if String.eqb k k' then Some v else lookup k rest
  end.

(** [v?.joinedAt]: only an object parsed from JSON can own the property. *)
Definition prop (v : json) (k : string) : option json :=
  match v with
  | JObject fields => lookup k fields
  | _ => None
  end.

(** Truthiness of a parsed value. *)
Definition truthy (v : json) : bool :=
  match v with
  | JNull => false
  | JBool b => b
  | JNumber q => negb (Qeq_bool q 0)
  | JString s => JsString.truthy s
  | JArray _ => true
  | JObject _ => true
  end.

Definition truthyO (o : option json) : bool :=
  match o with Some v => truthy v | None => false end.

End Json.

(* ------------------------------------------------------------------ *)
(** ** Dates *)

Module JsDate.

(** A Date is its time value; [None] is an Invalid Date. *)
Definition Date : Type := option Z.

Definition msPerMinute : Z := 60000.
Definition msPerHour : Z := 3600000.
Definition msPerDay : Z := 86400000.

(** Time values outside +-8.64e15 ms are not dates. *)
Definition TimeClip (t : Z) : Date :=
  if Z.abs t <=? 8640000000000000 then Some t else None.

Definition getTime (d : Date) : JsNumber.number :=
  match d with
  | Some t => JsNumber.ofZ t
  | None => JsNumber.NaN
  end.

(** Days since the epoch of a civil date of the proleptic Gregorian
    calendar. *)
Definition days_from_civil (y m d : Z) : Z :=
  let y' := if m <=? 2 then y - 1 else y in
  let era := y' / 400 in
  let yoe := y' - era * 400 in
  let mp := if m <=? 2 then m + 9 else m - 3 in
  let doy := (153 * mp + 2) / 5 + d - 1 in
  let doe := yoe * 365 + yoe / 4 - yoe / 100 + doy in
  era * 146097 + doe - 719468.

(** The civil date (year, month, day) of a day number. *)
Definition civil_from_days (z0 : Z) : Z * Z * Z :=
  let z := z0 + 719468 in
  let era := z / 146097 in
  let doe := z - era * 146097 in
  let yoe := (doe - doe / 1460 + doe / 36524 - doe / 146096) / 365 in
  let doy := doe - (365 * yoe + yoe / 4 - yoe / 100) in
  let mp := (5 * doy + 2) / 153 in
  let d := doy - (153 * mp + 2) / 5 + 1 in
  let m := if mp <? 10 then mp + 3 else mp - 9 in
  let y := yoe + era * 400 in
  (if m <=? 2 then y + 1 else y, m, d).

Definition is_leap (y : Z) : bool :=
  (y mod 4 =? 0) && (negb (y mod 100 =? 0) || (y mod 400 =? 0)).

Definition days_in_month (y m : Z) : Z :=
  if m =? 2 then (if is_leap y then 29 else 28)
  else if (m =? 4) || (m =? 6) || (m =? 9) || (m =? 11) then 30
  else 31.

(** The ISO date-only form [YYYY-MM-DD] of a real calendar date: its day
    number. Every other text is left to the host. *)
Definition iso_date_only (s : string) : option Z :=
  match list_ascii_of_string s with
  | [y1; y2; y3; y4; h1; m1; m2; h2; d1; d2] =>
      if forallb JsString.is_digit [y1; y2; y3; y4; m1; m2; d1; d2]
         && JsString.is_hyphen h1 && JsString.is_hyphen h2
      then
        let v := fun l => JsString.dec_value 0 (string_of_list_ascii l) in
        let y := v [y1; y2; y3; y4] in
        let m := v [m1; m2] in
        let d := v [d1; d2] in
        if (1 <=? m) && (m <=? 12) && (1 <=? d) && (d <=? days_in_month y m)
        then Some (days_from_civil y m d)
        else None
      else None
  | _ => None
  end.

(** Decimal digits of a non-negative integer, padded with zeros to [w]. *)
Definition pad (w : nat) (n : Z) : string :=
  let s := NilZero.string_of_int (Z.to_int n) in
  string_of_list_ascii (repeat "0"%char (w - String.length s))
    ++ s.

(** [new Date(t).toISOString().split("T")[0]]: the calendar date of the
    instant [t] in UTC; years outside 0..9999 take a sign and six
    digits. *)
Definition toISODate (t : Z) : string :=
  let '(y, m, d) := civil_from_days (t / msPerDay) in
  let ys :=
    if (0 <=? y) && (y <=? 9999) then pad 4 y
    else if y <? 0 then "-" ++ pad 6 (- y)
    else "+" ++ pad 6 y in
  ys ++ "-" ++ pad 2 m ++ "-" ++ pad 2 d.

(** What the browser decides. [LocalTZA] is the offset of local time from
    UTC in milliseconds, taken constant (no daylight-saving change). *)
Record Host : Type := {
  LocalTZA : Z;
  Date_parse_other : string -> Date;
  Date_of_object : Json.json -> Date;
  JSON_parse : string -> option Json.json
}.

Section WithHost.

Variable host : Host.

(** [new Date(dateStr)]: the date-only form is midnight UTC of that
    day. *)
Definition Date_parse (s : string) : Date :=
  match iso_date_only s with
  | Some days => TimeClip (days * msPerDay)
  | None => Date_parse_other host s
  end.

(** [new Date(v)] for a value read back from JSON. *)
Definition Date_of_json (v : Json.json) : Date :=
  match v with
  | Json.JString s => Date_parse s
  | Json.JNumber q => TimeClip (Z.quot (Qnum q) (Z.pos (Qden q)))
  | Json.JBool b => Some (if b then 1 else 0)
  | Json.JNull => Some 0
  | _ => Date_of_object host v
  end.

(** [d.setHours(h, min, sec, ms)]: replace the time of day of the local
    calendar day that [d] falls on. *)
Definition setHours (d : Date) (h min sec ms : Z) : Date :=
  match d with
  | None => None
  | Some t =>
      let day := (t + LocalTZA host) / msPerDay in
      let time := h * msPerHour + min * msPerMinute + sec * 1000 + ms in
      TimeClip (day * msPerDay + time - LocalTZA host)
  end.

(** The instant at which local clocks show [h]:[min] on day [days]. *)
Definition wallClock (days h min : Z) : Z :=
  days * msPerDay + h * msPerHour + min * msPerMinute - LocalTZA host.

End WithHost.

End JsDate.

(* ------------------------------------------------------------------ *)
(** ** The Queue component *)

Module Pending.

(** [PendingQueueData]: what the Reservation page stages; every field is
    optional. *)
Record PendingQueueData : Type := {
  queueDate : option string;
  timeSlot : option string;
  guests : option string;
  location : option string;
  segment : option string;
  tableName : option string;
  tableId : option string;
  tableLocation : option string;
  tableSegment : option string;
  tableCapacity : option string
}.

(** [pendingData?.f]. *)
Definition field (pd : option PendingQueueData)
    (f : PendingQueueData -> option string) : option string :=
  match pd with
  | Some p => f p
  | None => None
  end.

End Pending.

Module Form.

Record FormData : Type := {
  name : string;
  contact : string
}.

Definition empty : FormData := {| name := ""; contact := "" |}.

End Form.

Module Queue.

Import JsString JsNumber JsDate.

Inductive NotificationMethod : Type := sms | email.

(** [QueueEntry]. [hall] and [segment] are strings: the handler casts
    whatever was staged. [guests] is the result of [parseInt] and may be
    [NaN]; [position] is a list length plus one, an integer; [joinedAt] is
    the Date of the instant the entry was built, held as that instant. *)
Record QueueEntry : Type := {
  id : string;
  name : string;
  guests : number;
  notificationMethod : NotificationMethod;
  contact : string;
  hall : string;
  segment : string;
  position : Z;
  estimatedWaitMinutes : number;
  joinedAt : Z;
  queueDate : string;
  timeSlot : option string;
  notifiedAt5Min : bool;
  tableName : option string;
  tableId : option string;
  tableLocation : option string;
  tableSegment : option string;
  tableCapacity : option string;
  joinedAtTimestamp : option Z
}.

(** [{ ...prev, estimatedWaitMinutes: w, notifiedAt5Min: flag }]. *)
Definition withWait (prev : QueueEntry) (w : number) (flag : bool)
    : QueueEntry :=
  {| id := id prev; name := name prev; guests := guests prev;
     notificationMethod := notificationMethod prev;
     contact := contact prev; hall := hall prev; segment := segment prev;
     position := position prev; estimatedWaitMinutes := w;
     joinedAt := joinedAt prev; queueDate := queueDate prev;
     timeSlot := timeSlot prev; notifiedAt5Min := flag;
     tableName := tableName prev; tableId := tableId prev;
     tableLocation := tableLocation prev;
     tableSegment := tableSegment prev;
     tableCapacity := tableCapacity prev;
     joinedAtTimestamp := joinedAtTimestamp prev |}.

Inductive Effect : Type :=
| Alert (msg : string)
| AlertTableReady (table : option string) (guestCount : number)
| Confirm (msg : string)
| RemoteJoin (entry : QueueEntry)
| RemoteCancel (entryId : string)
| RemoteFetch (dateStr : string)
| OnJoinQueue (pos : Z)
| RemoveItem (key : string).

(** The React state of the component, with the staged local-storage item
    [pendingQueueData]. *)
Record State : Type := {
  queueDatabase : list QueueEntry;
  currentUserEntry : option QueueEntry;
  pendingData : option Pending.PendingQueueData;
  formData : Form.FormData;
  showForm : bool;
  showStatus : bool;
  stagedItem : option string
}.

(** *** Position *)

Definition sameCombo (g : number) (h s : string) (entry : QueueEntry)
    : bool :=
  strict_eq (guests entry) g
  && String.eqb (hall entry) h
  && String.eqb (segment entry) s.

Definition calculatePosition (db : list QueueEntry)
    (g : number) (h s : string) : Z :=
  let sameComboEntries := filter (sameCombo g h s) db in
  Z.of_nat (length sameComboEntries) + 1.

(** *** Slot parsing *)

(** [(AM|PM)] under the [i] flag, at the head of [s]: the two letters as
    they stand in the text. *)
Definition ampm_here (s : string) : option string :=
  match s with
  | String a (String m _) =>
      let ua := code (upper a) in
      let um := code (upper m) in
      if ((ua =? 65) || (ua =? 80))%N && (um =? 77)%N
      then Some (String a (String m EmptyString))
      else None
  | _ => None
  end.

(** [(\d+):(\d+)\s*(AM|PM)] anchored at the head of [s]: the three
    groups. *)
Definition match_here (s : string) : option (string * string * string) :=
  let (g1, r1) := span_digits s in
  if truthy g1 then
    match r1 with
    | String c r2 =>
        if (code c =? 58)%N then
          let (g2, r3) := span_digits r2 in
          if truthy g2 then
            match ampm_here (trimStart r3) with
            | Some g3 => Some (g1, g2, g3)
            | None => None
            end
          else None
        else None
    | EmptyString => None
    end
  else None.

(** [p.match(/(\d+):(\d+)\s*(AM|PM)/i)]: the leftmost match. *)
Fixpoint regex_match (p : string) : option (string * string * string) :=
  match match_here p with
  | Some m => Some m
  | None =>
      match p with
      | EmptyString => None
      | String _ rest => regex_match rest
      end
  end.

Section WithHost.

Variable host : Host.

Definition parsePart (dateStr p : string) : option Date :=
  match regex_match p with
  | None => None
  | Some (m1, m2, m3) =>
      let h := dec_value 0 m1 in
      let min := dec_value 0 m2 in
      let ampm := toUpperCase m3 in
      let h := if String.eqb ampm "PM" && (h <? 12) then h + 12 else h in
      let h := if String.eqb ampm "AM" && (h =? 12) then 0 else h in
      let d := Date_parse host dateStr in
      Some (setHours host d h min 0 0)
  end.

(** An Invalid Date is an object, hence truthy: only a token that the
    pattern rejects makes the result [null]. *)
Definition parseSlotTimes (dateStr slot : string)
    : option (Date * Date) :=
  if negb (truthy slot) then None
  else
    match map trim (splitDash slot) with
    | p0 :: p1 :: _ =>
        match parsePart dateStr p0, parsePart dateStr p1 with
        | Some start, Some stop => Some (start, stop)
        | _, _ => None
        end
    | _ => None
    end.

(** *** Estimated wait *)

(** [Math.max(0, (start.getTime() - now) / (1000 * 60))]. *)
Definition slotWait (start : Date) (now : Z) : number :=
  let diffMs := nsub (getTime start) (ofZ now) in
  Math_max (ofZ 0) (ndiv diffMs (ofZ (1000 * 60))).

(** [Math.max(0, position * 15 - (now - joinedAt) / (1000 * 60))]. *)
Definition positionWait (pos joined now : Z) : number :=
  let timeElapsedMinutes :=
    ndiv (nsub (ofZ now) (ofZ joined)) (ofZ (1000 * 60)) in
  Math_max (ofZ 0) (nsub (nmul (ofZ pos) (ofZ 15)) timeElapsedMinutes).

(** The value the interval callback computes for [prev] at [now]. *)
Definition newEstimatedWaitMinutes (now : Z) (prev : QueueEntry)
    : number :=
  if truthyO (timeSlot prev) && truthy (queueDate prev) then
    match parseSlotTimes (queueDate prev) (orElse (timeSlot prev) "") with
    | Some (start, _) => slotWait start now
    | None => ofZ 0
    end
  else positionWait (position prev) (joinedAt prev) now.

(** One run of the updater passed to [setCurrentUserEntry] by the
    interval, on a present entry. *)
Definition tickEntry (now : Z) (prev : QueueEntry)
    : QueueEntry * list Effect :=
  let w := newEstimatedWaitMinutes now prev in
  if nle w (ofZ 5) && ngt w (ofZ 0) && negb (notifiedAt5Min prev)
  then (withWait prev w true,
        [AlertTableReady (tableName prev) (guests prev)])
  else (withWait prev w (notifiedAt5Min prev), []).

Definition tick (now : Z) (prev : option QueueEntry)
    : option QueueEntry * list Effect :=
  match prev with
  | None => (None, [])
  | Some e => let (e', fx) := tickEntry now e in (Some e', fx)
  end.

(** The interval over a list of clock readings, one per tick: the final
    entry and every effect, in order. *)
Fixpoint ticks (nows : list Z) (prev : option QueueEntry)
    : option QueueEntry * list Effect :=
  match nows with
  | [] => (prev, [])
  | now :: rest =>
      let (mid, fx) := tick now prev in
      let (last, fx') := ticks rest mid in
      (last, (fx ++ fx')%list)
  end.

End WithHost.

(** *** Join *)

(** The three readings of the clock in [handleJoinQueue], in the order
    they are taken: for the default service date, for the press of
    "Join Queue", for the entry id. *)
Record JoinClock : Type := {
  atDate : Z;
  atPress : Z;
  atId : Z
}.

Definition resolveQueueDate (pd : option Pending.PendingQueueData)
    (now : Z) : string :=
  orElse (Pending.field pd Pending.queueDate) (toISODate now).

Definition resolveTimeSlot (pd : option Pending.PendingQueueData)
    : string :=
  orElse (Pending.field pd Pending.timeSlot) "".

Definition resolveGuests (pd : option Pending.PendingQueueData)
    : number :=
  parseInt (orElse (Pending.field pd Pending.guests) "2").

Definition resolveHall (pd : option Pending.PendingQueueData) : string :=
  orElse (orElseO (Pending.field pd Pending.tableLocation)
                  (Pending.field pd Pending.location)) "Any".

Definition resolveSegment (pd : option Pending.PendingQueueData)
    : string :=
  orElse (orElseO (Pending.field pd Pending.tableSegment)
                  (Pending.field pd Pending.segment)) "Any".

Section WithHost.

Variable host : Host.

(** [initialWaitMinutes]: the position-based figure unless the slot
    parses. *)
Definition initialWaitMinutes (dateStr slot : string)
    (optimisticPosition joinPressTime : Z) : number :=
  let fallback := nmul (ofZ optimisticPosition) (ofZ 15) in
  if truthy slot && truthy dateStr then
    match parseSlotTimes host dateStr slot with
    | Some (start, _) => slotWait start joinPressTime
    | None => fallback
    end
  else fallback.

(** The entry [handleJoinQueue] builds once validation has passed. *)
Definition newEntry (st : State) (clock : JoinClock) : QueueEntry :=
  let pd := pendingData st in
  let dateStr := resolveQueueDate pd (atDate clock) in
  let slot := resolveTimeSlot pd in
  let g := resolveGuests pd in
  let h := resolveHall pd in
  let s := resolveSegment pd in
  let optimisticPosition := calculatePosition (queueDatabase st) g h s in
  let joinPressTime := atPress clock in
  {| id := "QUEUE" ++ NilZero.string_of_int (Z.to_int (atId clock));
     name := Form.name (formData st);
     guests := g;
     notificationMethod := sms;
     contact := Form.contact (formData st);
     hall := h;
     segment := s;
     position := optimisticPosition;
     estimatedWaitMinutes :=
       initialWaitMinutes dateStr slot optimisticPosition joinPressTime;
     joinedAt := joinPressTime;
     queueDate := dateStr;
     timeSlot := Some slot;
     notifiedAt5Min := false;
     tableName := Pending.field pd Pending.tableName;
     tableId := Pending.field pd Pending.tableId;
     tableLocation := Pending.field pd Pending.tableLocation;
     tableSegment := Pending.field pd Pending.tableSegment;
     tableCapacity := Pending.field pd Pending.tableCapacity;
     joinedAtTimestamp := Some joinPressTime |}.

(** State after a join that went through, with the entry [adopted]. *)
Definition joined (st : State) (adopted : QueueEntry) : State :=
  {| queueDatabase := (queueDatabase st ++ [adopted])%list;
     currentUserEntry := Some adopted;
     pendingData := pendingData st;
     formData := formData st;
     showForm := true;
     showStatus := true;
     stagedItem := None |}.

(** [handleJoinQueue]. [remote] is the outcome of [joinQueue]: the entry
    the server returned, or [None] when the call threw. *)
Definition handleJoinQueue (st : State) (clock : JoinClock)
    (remote : option QueueEntry) : State * list Effect :=
  if negb (truthy (trim (Form.name (formData st)))) then
    (st, [Alert "Please enter your name"])
  else if negb (truthy (trim (Form.contact (formData st)))) then
    (st, [Alert "Please enter your contact details"])
  else
    let entry := newEntry st clock in
    match remote with
    | Some created =>
        (joined st created,
         [RemoteJoin entry; OnJoinQueue (position created);
          RemoveItem "pendingQueueData"])
    | None =>
        (joined st entry,
         [RemoteJoin entry; OnJoinQueue (position entry);
          RemoveItem "pendingQueueData"])
    end.

(** *** Cancel *)

(** Outcome of the two remote calls of [handleCancelQueue]. *)
Inductive CancelRemote : Type :=
| CancelThrows
| RefreshThrows
| Refreshed (entries : list QueueEntry).

Definition withoutEntry (db : list QueueEntry) (cur : QueueEntry)
    : list QueueEntry :=
  filter (fun e => negb (String.eqb (id e) (id cur))) db.

(** [handleCancelQueue]. [answer] is what [confirm] returned, [now] the
    clock reading for the default date of the refresh. *)
Definition handleCancelQueue (st : State) (answer : bool) (now : Z)
    (remote : CancelRemote) : State * list Effect :=
  match currentUserEntry st with
  | None => (st, [])
  | Some cur =>
      let ask :=
        Confirm "Are you sure you want to cancel your queue position?" in
      if answer then
        let dateStr :=
          if truthy (queueDate cur) then queueDate cur
          else toISODate now in
        let db :=
          match remote with
          | CancelThrows => withoutEntry (queueDatabase st) cur
          | RefreshThrows => withoutEntry (queueDatabase st) cur
          | Refreshed entries => entries
          end in
        let calls :=
          match remote with
          | CancelThrows => [RemoteCancel (id cur)]
          | _ => [RemoteCancel (id cur); RemoteFetch dateStr]
          end in
        ({| queueDatabase := db;
            currentUserEntry := None;
            pendingData := None;
            formData := Form.empty;
            showForm := false;
            showStatus := false;
            stagedItem := stagedItem st |},
         ask :: calls)
      else (st, [ask])
  end.

End WithHost.

End Queue.

(* ------------------------------------------------------------------ *)
(** ** Loading the persisted state *)

Module Persistence.

Import Json JsDate.

Inductive JsError : Type := SyntaxError | TypeError.

Inductive outcome (A : Type) : Type :=
| Returns (a : A)
| Throws (e : JsError).

Arguments Returns {A} a.
Arguments Throws {A} e.

(** An entry as the loaders leave it: the parsed value, of which the
    object keeps every property, and the revived [joinedAt]. *)
Record Loaded : Type := {
  raw : json;
  joinedAt : Date
}.

Section WithHost.

Variable host : Host.

(** [{ ...e, joinedAt: e?.joinedAt ? new Date(e.joinedAt) : new Date() }]. *)
Definition revive (now : Z) (e : json) : Loaded :=
  {| raw := e;
     joinedAt :=
       match prop e "joinedAt" with
       | Some v => if truthy v then Date_of_json host v else TimeClip now
       | None => TimeClip now
       end |}.

(** The initializer of [queueDatabase]. [saved] is the local-storage
    item; the body after [if (!saved)] runs inside [try], and [catch]
    returns the empty list. *)
Definition queueDatabase_init (now : Z) (saved : option string)
    : outcome (list Loaded) :=
  if negb (JsString.truthyO saved) then Returns []
  else
    match JSON_parse host (JsString.orElse saved "") with
    | None => Returns []
    | Some (JArray items) => Returns (map (revive now) items)
    | Some _ => Returns []
    end.

(** The initializer of [currentUserEntry]: no [try] around
    [JSON.parse], and a property write, which a module (strict code)
    refuses on [null] and on a primitive. *)
Definition currentUserEntry_init (saved : option string)
    : outcome (option Loaded) :=
  if JsString.truthyO saved then
    match JSON_parse host (JsString.orElse saved "") with
    | None => Throws SyntaxError
    | Some (JObject fields) =>
        Returns (Some {| raw := JObject fields;
                         joinedAt :=
                           match lookup "joinedAt" fields with
                           | Some v => Date_of_json host v
                           | None => None
                           end |})
    | Some (JArray items) =>
        Returns (Some {| raw := JArray items; joinedAt := None |})
    | Some _ => Throws TypeError
    end
  else Returns None.

End WithHost.

End Persistence.

(* ------------------------------------------------------------------ *)
(** ** Reference notions the statements are measured against *)

Module Spec.

Import JsString JsNumber JsDate Queue.

(** An entry shares the triple: its guest count, hall and segment equal
    the triple's, numbers being compared as the component compares them
    (a guest count that is not a number equals nothing). *)
Definition sharesTriple (g : number) (h s : string) (e : QueueEntry)
    : Prop :=
  strict_eq (guests e) g = true /\ hall e = h /\ segment e = s.

Definition sharesTriple_dec (g : number) (h s : string) (e : QueueEntry)
    : {sharesTriple g h s e} + {~ sharesTriple g h s e}.
Proof.
  unfold sharesTriple.
  destruct (bool_dec (strict_eq (guests e) g) true) as [Hg | Hg];
    [| right; tauto].
  destruct (string_dec (hall e) h) as [Hh | Hh]; [| right; tauto].
  destruct (string_dec (segment e) s) as [Hs | Hs]; [| right; tauto].
  left; tauto.
Defined.

(** Count of the entries of a list that share the triple. *)
Fixpoint countSameTriple (g : number) (h s : string)
    (db : list QueueEntry) : nat :=
  match db with
  | [] => 0%nat
  | e :: rest =>
      if sharesTriple_dec g h s e
      then S (countSameTriple g h s rest)
      else countSameTriple g h s rest
  end.

(** The wait lies in the interval (0, 5]. *)
Definition inNoticeWindow (w : number) : Prop :=
  match w with
  | Num q => (0 < q /\ q <= 5)%Q
  | NaN => False
  end.

(** [max(0, q)] on rationals, as a number. *)
Definition max0 (q : Q) : number := Num (Qmax 0 q).

(** The position-based estimate: [position x 15] minutes less the
    minutes elapsed since the join. *)
Definition positionEstimate (pos joined now : Z) : number :=
  max0 (inject_Z pos * 15 - inject_Z (now - joined) / 60000).

(** The slot-based estimate for a slot that starts at the instant
    [start]: the minutes from [now] to it, or zero once it has passed. *)
Definition slotEstimate (start now : Z) : number :=
  max0 (inject_Z (start - now) / 60000).

(** The hour of the day that a 12-hour clock reading denotes: 12 AM is
    midnight, 12 PM is noon. *)
Definition hour24 (h : Z) (ampm : string) : Z :=
  if String.eqb ampm "PM" then (if h <? 12 then h + 12 else h)
  else if String.eqb ampm "AM" then (if h =? 12 then 0 else h)
  else h.

(** The form passes validation: name and contact are non-empty once
    trimmed. *)
Definition validForm (fd : Form.FormData) : Prop :=
  trim (Form.name fd) <> "" /\ trim (Form.contact fd) <> "".

(** The remote store honours a cancellation it accepted: the list it
    returns afterwards no longer holds the cancelled id. *)
Definition honoursCancel (remote : CancelRemote) (cancelled : string)
    : Prop :=
  match remote with
  | Refreshed entries => Forall (fun e => id e <> cancelled) entries
  | _ => True
  end.

(** The day in UTC of the instant [t], counted from 1 January 1970. *)
Definition utcDay (t : Z) : Z := t / msPerDay.

(** The day the user's calendar shows at the instant [t]: the day of the
    local time, [LocalTZA] away from UTC. *)
Definition localDay (host : Host) (t : Z) : Z :=
  (t + LocalTZA host) / msPerDay.

(** The text [s] is the date [YYYY-MM-DD] of day [k]. *)
Definition namesDay (s : string) (k : Z) : Prop :=
  iso_date_only s = Some k.

End Spec.

(* ------------------------------------------------------------------ *)
(** ** Example hosts and scenarios *)

Module Hosts.

Import Json JsDate.

(** [JSON.parse] cut down to the texts of the examples: the literals, the
    empty array and the empty object; anything else is refused. *)
Definition jsonLiteral (s : string) : option json :=
  if String.eqb s "null" then Some JNull
  else if String.eqb s "true" then Some (JBool true)
  else if String.eqb s "false" then Some (JBool false)
  else if String.eqb s "[]" then Some (JArray [])
  else if String.eqb s "{}" then Some (JObject [])
  else None.

(** A browser on Indian Standard Time, UTC+05:30. *)
Definition kolkata : Host :=
  {| LocalTZA := 19800000;
     Date_parse_other := fun _ => None;
     Date_of_object := fun _ => None;
     JSON_parse := jsonLiteral |}.

(** A browser on Eastern Standard Time, UTC-05:00. *)
Definition newYork : Host :=
  {| LocalTZA := -18000000;
     Date_parse_other := fun _ => None;
     Date_of_object := fun _ => None;
     JSON_parse := jsonLiteral |}.

End Hosts.

Module Scenario.

Import JsString JsNumber JsDate Queue.

(** The user types into the form: [setFormData]. *)
Definition setFormData (st : State) (fd : Form.FormData) : State :=
  {| queueDatabase := queueDatabase st;
     currentUserEntry := currentUserEntry st;
     pendingData := pendingData st;
     formData := fd;
     showForm := showForm st;
     showStatus := showStatus st;
     stagedItem := stagedItem st |}.

(** Sequential local joins: each input is what the user typed and the
    clock of that submission; every remote call fails. *)
Fixpoint localJoins (host : Host) (st : State)
    (inputs : list (Form.FormData * JoinClock)) : State * list Effect :=
  match inputs with
  | [] => (st, [])
  | (fd, clock) :: rest =>
      let (st1, fx) := handleJoinQueue host (setFormData st fd) clock None in
      let (st2, fx') := localJoins host st1 rest in
      (st2, (fx ++ fx')%list)
  end.

(** The positions handed to [onJoinQueue], in order. *)
Definition reportedPositions (fx : list Effect) : list Z :=
  flat_map (fun e => match e with OnJoinQueue p => [p] | _ => [] end) fx.

(** Staged data carrying a service date and a slot only. *)
Definition staged (dateStr slot : string) : Pending.PendingQueueData :=
  {| Pending.queueDate := Some dateStr; Pending.timeSlot := Some slot;
     Pending.guests := None; Pending.location := None;
     Pending.segment := None; Pending.tableName := None;
     Pending.tableId := None; Pending.tableLocation := None;
     Pending.tableSegment := None; Pending.tableCapacity := None |}.

(** Staged data carrying a slot only: no service date. *)
Definition stagedSlot (slot : string) : Pending.PendingQueueData :=
  {| Pending.queueDate := None; Pending.timeSlot := Some slot;
     Pending.guests := None; Pending.location := None;
     Pending.segment := None; Pending.tableName := None;
     Pending.tableId := None; Pending.tableLocation := None;
     Pending.tableSegment := None; Pending.tableCapacity := None |}.

(** The state of a fresh visit, with optional staged data and the form
    as typed. *)
Definition fresh (pd : option Pending.PendingQueueData)
    (fd : Form.FormData) : State :=
  {| queueDatabase := [];
     currentUserEntry := None;
     pendingData := pd;
     formData := fd;
     showForm := false;
     showStatus := false;
     stagedItem := None |}.

Definition asha : Form.FormData :=
  {| Form.name := "Asha"; Form.contact := "98400 00000" |}.

Definition ravi : Form.FormData :=
  {| Form.name := " Ravi "; Form.contact := "ravi@example.org" |}.

Definition meena : Form.FormData :=
  {| Form.name := "Meena"; Form.contact := "044 2345 6789" |}.

Definition blankName : Form.FormData :=
  {| Form.name := "   "; Form.contact := "98400 00000" |}.

(** 15 January 2024 is day 19737 of the epoch. *)
Definition day : Z := 19737.

(** A clock whose three readings are the same instant. *)
Definition clockAt (t : Z) : JoinClock :=
  {| atDate := t; atPress := t; atId := t |}.

(** An entry as a local join leaves it, for a given service date, slot,
    position and join instant. *)
Definition entryWith (dateStr : string) (slot : option string)
    (pos joined : Z) : QueueEntry :=
  {| id := "QUEUE1"; name := "Asha"; guests := ofZ 2;
     notificationMethod := sms; contact := "98400 00000";
     hall := "Any"; segment := "Any"; position := pos;
     estimatedWaitMinutes := ofZ (pos * 15);
     joinedAt := joined; queueDate := dateStr; timeSlot := slot;
     notifiedAt5Min := false;
     tableName := None; tableId := None; tableLocation := None;
     tableSegment := None; tableCapacity := None;
     joinedAtTimestamp := Some joined |}.

(** Three submissions, a minute apart, on the afternoon of 15 January
    2024. *)
Definition threeInputs : list (Form.FormData * JoinClock) :=
  [(asha, clockAt 1705320000000);
   (ravi, clockAt 1705320060000);
   (meena, clockAt 1705320120000)].

(** The state after those three local joins on a fresh visit with
    nothing staged; the current-user entry is the third. *)
Definition afterThreeJoins : State :=
  fst (localJoins Hosts.kolkata (fresh None asha) threeInputs).

End Scenario.

(* ------------------------------------------------------------------ *)
(** ** The status panel *)

Module Display.

Import JsString JsNumber Queue.

(** [Math.floor]. *)
Definition Math_floor (a : number) : number :=
  match a with
  | Num q => ofZ (Qfloor q)
  | NaN => NaN
  end.

(** The integer part of a rational, towards zero. *)
Definition Qtrunc (q : Q) : Z := Z.quot (Qnum q) (Z.pos (Qden q)).

(** [a % b]: the remainder takes the sign of the dividend; [NaN] for a
    zero divisor. *)
Definition nmod (a b : number) : number :=
  match a, b with
  | Num x, Num y =>
      if Qeq_bool y 0 then NaN
      else Num (x - y * inject_Z (Qtrunc (x / y)))
  | _, _ => NaN
  end.

(** [s.padStart(2, "0")]. *)
Definition padStart2 (s : string) : string :=
  string_of_list_ascii (repeat "0"%char (2 - String.length s)) ++ s.

Section Render.

(** [String(x)] for a number that is not an integer below 10^21 in
    magnitude (a fraction, or a value written with an exponent): left to
    the host. *)
Variable String_other : Q -> string.

(** [String(a)]. *)
Definition String_number (a : number) : string :=
  match a with
  | NaN => "NaN"
  | Num q =>
      let z := Qfloor q in
      if Qeq_bool q (inject_Z z) && (Z.abs z <? 10 ^ 21)
      then NilZero.string_of_int (Z.to_int z)
      else String_other q
  end.

Definition formatWaitTime (minutes : number) : string :=
  if nle minutes (ofZ 0) then "00:00:00"
  else
    let totalSeconds := Math_floor (nmul minutes (ofZ 60)) in
    let hours := Math_floor (ndiv totalSeconds (ofZ 3600)) in
    let mins :=
      Math_floor (ndiv (nmod totalSeconds (ofZ 3600)) (ofZ 60)) in
    let secs := nmod totalSeconds (ofZ 60) in
    padStart2 (String_number hours) ++ ":"
    ++ padStart2 (String_number mins) ++ ":"
    ++ padStart2 (String_number secs).

End Render.

(** The class of the wait figure:
    [`text-6xl mb-2 ${w <= 0 ? 'text-green-300' : w <= 5 ?
    'text-yellow-300' : ''}`]. *)
Definition waitClass (w : number) : string :=
  "text-6xl mb-2 "
  ++ (if nle w (ofZ 0) then "text-green-300"
      else if nle w (ofZ 5) then "text-yellow-300"
      else "").

(** The line under the wait figure. *)
Definition waitCaption (e : QueueEntry) : string :=
  if nle (estimatedWaitMinutes e) (ofZ 0)
  then "🍽️ Your table is ready! Please head to the restaurant."
  else if truthyO (timeSlot e)
       then "⏱ Counting down to slot: " ++ orElse (timeSlot e) ""
       else "⏱ Real-time countdown active".

End Display.

(* ------------------------------------------------------------------ *)
(** ** Panels, effects and the life of a visit *)

Module Lifecycle.

Import JsString JsNumber JsDate Queue.

Definition withPanels (st : State) (form status : bool) : State :=
  {| queueDatabase := queueDatabase st;
     currentUserEntry := currentUserEntry st;
     pendingData := pendingData st;
     formData := formData st;
     showForm := form;
     showStatus := status;
     stagedItem := stagedItem st |}.

Definition handleBackToHero (st : State) : State := withPanels st false false.

(** The two [onChange] handlers of the form. *)
Definition typeName (st : State) (v : string) : State :=
  {| queueDatabase := queueDatabase st;
     currentUserEntry := currentUserEntry st;
     pendingData := pendingData st;
     formData := {| Form.name := v;
                    Form.contact := Form.contact (formData st) |};
     showForm := showForm st;
     showStatus := showStatus st;
     stagedItem := stagedItem st |}.

Definition typeContact (st : State) (v : string) : State :=
  {| queueDatabase := queueDatabase st;
     currentUserEntry := currentUserEntry st;
     pendingData := pendingData st;
     formData := {| Form.name := Form.name (formData st);
                    Form.contact := v |};
     showForm := showForm st;
     showStatus := showStatus st;
     stagedItem := stagedItem st |}.

Definition withCurrent (st : State) (cur : option QueueEntry) : State :=
  {| queueDatabase := queueDatabase st;
     currentUserEntry := cur;
     pendingData := pendingData st;
     formData := formData st;
     showForm := showForm st;
     showStatus := showStatus st;
     stagedItem := stagedItem st |}.

(** What the effects send out: a write or a removal of a local-storage
    item (the entry is the value handed to [JSON.stringify]), and the
    best-effort update of the flag in the remote store. *)
Inductive Call : Type :=
| SetItem (key : string) (entry : QueueEntry)
| RemoveStored (key : string)
| UpdateFlag (entryId : string).

(** The effect on [currentUserEntry]: persist the entry and show the
    status panel, or drop the stored item. *)
Definition currentEntryEffect (st : State) : State * list Call :=
  match currentUserEntry st with
  | Some e => (withPanels st true true, [SetItem "currentUserEntry" e])
  | None => (st, [RemoveStored "currentUserEntry"])
  end.

(** The effect on [currentUserEntry?.id] and
    [currentUserEntry?.notifiedAt5Min]: it runs when one of the two has
    changed since the last render, and reports a raised flag. *)
Definition flagSyncEffect (before after : option QueueEntry) : list Call :=
  let changed :=
    match before, after with
    | Some b, Some a =>
        negb (String.eqb (id b) (id a))
        || negb (Bool.eqb (notifiedAt5Min b) (notifiedAt5Min a))
    | None, None => false
    | _, _ => true
    end in
  if changed then
    match after with
    | Some a => if notifiedAt5Min a then [UpdateFlag (id a)] else []
    | None => []
    end
  else [].

Section WithHost.

Variable host : Host.

(** One tick of the interval, with the effects that follow the render.
    The interval exists only while there is a current entry; on such an
    entry the updater returns a new object, so the effect on
    [currentUserEntry] runs after every tick. *)
Definition tickState (now : Z) (st : State)
    : State * list Effect * list Call :=
  match currentUserEntry st with
  | None => (st, [], [])
  | Some e =>
      let (e', fx) := tickEntry host now e in
      let (st', calls) := currentEntryEffect (withCurrent st (Some e')) in
      (st', fx, (calls ++ flagSyncEffect (Some e) (Some e'))%list)
  end.

Fixpoint ticksState (nows : list Z) (st : State)
    : State * list Effect * list Call :=
  match nows with
  | [] => (st, [], [])
  | now :: rest =>
      let '(st1, fx, calls) := tickState now st in
      let '(st2, fx', calls') := ticksState rest st1 in
      (st2, (fx ++ fx')%list, (calls ++ calls')%list)
  end.

End WithHost.

End Lifecycle.

(* ------------------------------------------------------------------ *)
(** ** Reference notions for the status panel and the life of a visit *)

Module Reference.

Import JsString JsNumber JsDate Queue.


(** [a <= b] on numbers that are either both numbers or both not. *)
Definition noMore (a b : number) : Prop :=
  match a, b with
  | Num x, Num y => (x <= y)%Q
  | NaN, NaN => True
  | _, _ => False
  end.

(** The wait is a number that is zero or less. *)
Definition atMostZero (w : number) : Prop :=
  match w with
  | Num q => (q <= 0)%Q
  | NaN => False
  end.

(** How two readings of the wait of one entry relate, the second taken at
    [t2], after the first at [t1]: both are numbers or both are not, the
    later one is not larger, and it is smaller by no more than the minutes
    that went by. *)
Definition waitStep (t1 t2 : Z) (w1 w2 : number) : Prop :=
  match w1, w2 with
  | Num a, Num b =>
      (b <= a)%Q /\ (a - b <= inject_Z (t2 - t1) / 60000)%Q
  | NaN, NaN => True
  | _, _ => False
  end.

(** The wait is a number above five minutes. *)
Definition aboveFive (w : number) : Prop :=
  match w with
  | Num q => (5 < q)%Q
  | NaN => False
  end.

(** The wait is a number of five minutes or less. *)
Definition fiveOrLess (w : number) : Prop :=
  match w with
  | Num q => (q <= 5)%Q
  | NaN => False
  end.

(** Clock readings in order, each at most [gap] milliseconds after the
    one before, the first at most [gap] after [prev]. *)
Fixpoint paced (gap prev : Z) (ts : list Z) : Prop :=
  match ts with
  | [] => True
  | t :: rest => prev <= t <= prev + gap /\ paced gap t rest
  end.

(** [p] holds at the [n] integers from [z] on. *)
Fixpoint allFrom (n : nat) (z : Z) (p : Z -> bool) : bool :=
  match n with
  | O => true
  | S n' => p z && allFrom n' (z + 1) p
  end.

(** [pad w n] is [w] digits that read back as [n]. *)
Definition padCheck (w : nat) (n : Z) : bool :=
  let l := list_ascii_of_string (pad w n) in
  (length l =? w)%nat && forallb is_digit l
  && (dec_value 0 (pad w n) =? n).

(** No entry of the list carries the id. *)
Definition freshId (i : string) (db : list QueueEntry) : Prop :=
  Forall (fun e => id e <> i) db.

End Reference.

(* ------------------------------------------------------------------ *)
(** * Properties *)

(** ** Strings and numbers *)

Section BasicFacts.

Import JsString JsNumber.

Lemma truthy_true_iff (s : string) : truthy s = true <-> s <> "".
Proof.
  destruct s; simpl; split; intro H; congruence.
Qed.

Lemma truthy_false_iff (s : string) : truthy s = false <-> s = "".
Proof.
  destruct s; simpl; split; intro H; congruence.
Qed.

Lemma strict_eq_right (x g g' : number) :
  strict_eq g' g = true -> strict_eq x g' = strict_eq x g.
Proof.
  destruct x as [x |], g as [g |], g' as [g' |]; simpl; try congruence.
  intro H. apply Qeq_bool_iff in H.
  destruct (Qeq_bool x g') eqn:E1, (Qeq_bool x g) eqn:E2; try reflexivity.
  - apply Qeq_bool_iff in E1. apply Qeq_bool_neq in E2.
    exfalso; apply E2. rewrite E1; exact H.
  - apply Qeq_bool_iff in E2. apply Qeq_bool_neq in E1.
    exfalso; apply E1. rewrite E2; symmetry; exact H.
Qed.

Lemma Math_max_zero_same (x : Q) :
  same (Math_max (ofZ 0) (Num x)) (Spec.max0 x).
Proof.
  simpl. destruct (Qle_bool (inject_Z 0) x) eqn:E.
  - apply Qle_bool_iff in E. symmetry. apply Q.max_r. exact E.
  - assert (H : ~ (0 <= x)%Q).
    { intro H. apply Qle_bool_iff in H. unfold inject_Z in E.
      congruence. }
    symmetry. apply Q.max_l. apply Qnot_le_lt in H.
    apply Qlt_le_weak. exact H.
Qed.

Lemma Math_max_zero_nonneg (x : Q) : nonneg (Math_max (ofZ 0) (Num x)).
Proof.
  simpl. destruct (Qle_bool (inject_Z 0) x) eqn:E.
  - apply Qle_bool_iff in E. exact E.
  - apply Qle_refl.
Qed.

End BasicFacts.

(** ** Position assignment *)

Section Position.

Import JsString JsNumber Queue Spec Scenario.

Lemma sameCombo_iff g h s e :
  sameCombo g h s e = true <-> sharesTriple g h s e.
Proof.
  unfold sameCombo, sharesTriple.
  rewrite !andb_true_iff, !String.eqb_eq. tauto.
Qed.

Lemma calculatePosition_count db g h s :
  calculatePosition db g h s = Z.of_nat (countSameTriple g h s db) + 1.
Proof.
  unfold calculatePosition. f_equal. f_equal.
  induction db as [| e db IH]; simpl; [reflexivity |].
  destruct (sharesTriple_dec g h s e) as [Hs | Hs].
  - apply sameCombo_iff in Hs. rewrite Hs. simpl. f_equal. exact IH.
  - destruct (sameCombo g h s e) eqn:E; [| exact IH].
    apply sameCombo_iff in E. contradiction.
Qed.

Lemma countSameTriple_app g h s db1 db2 :
  countSameTriple g h s (db1 ++ db2)
  = (countSameTriple g h s db1 + countSameTriple g h s db2)%nat.
Proof.
  induction db1 as [| e db1 IH]; simpl; [reflexivity |].
  destruct (sharesTriple_dec g h s e); rewrite IH; reflexivity.
Qed.

Lemma countSameTriple_guests g g' h s db :
  strict_eq g' g = true ->
  countSameTriple g' h s db = countSameTriple g h s db.
Proof.
  intro Hg.
  induction db as [| e db IH]; simpl; [reflexivity |].
  destruct (sharesTriple_dec g' h s e) as [H1 | H1],
           (sharesTriple_dec g h s e) as [H2 | H2];
    rewrite IH; try reflexivity; exfalso;
    unfold sharesTriple in *;
    rewrite (strict_eq_right (guests e) g g' Hg) in H1; tauto.
Qed.

Variable host : JsDate.Host.

Lemma handleJoinQueue_local st clock :
  validForm (formData st) ->
  handleJoinQueue host st clock None
  = (joined st (newEntry host st clock),
     [RemoteJoin (newEntry host st clock);
      OnJoinQueue (position (newEntry host st clock));
      RemoveItem "pendingQueueData"]).
Proof.
  intros [Hn Hc]. unfold handleJoinQueue.
  apply truthy_true_iff in Hn. apply truthy_true_iff in Hc.
  rewrite Hn, Hc. reflexivity.
Qed.

Lemma localJoins_positions g h s inputs :
  forall st,
    Forall (fun i => validForm (fst i)) inputs ->
    strict_eq (resolveGuests (pendingData st)) g = true ->
    resolveHall (pendingData st) = h ->
    resolveSegment (pendingData st) = s ->
    reportedPositions (snd (localJoins host st inputs))
    = map Z.of_nat
        (seq (S (countSameTriple g h s (queueDatabase st)))
             (length inputs))
    /\ exists added,
        queueDatabase (fst (localJoins host st inputs))
        = (queueDatabase st ++ added)%list
        /\ map position added
           = map Z.of_nat
               (seq (S (countSameTriple g h s (queueDatabase st)))
                    (length inputs)).
Proof.
  induction inputs as [| [fd clock] rest IH]; intros st Hv Hg Hh Hs.
  - simpl. split; [reflexivity |]. exists []. split.
    + rewrite app_nil_r. reflexivity.
    + reflexivity.
  - pose proof (Forall_inv Hv) as Hfd.
    pose proof (Forall_inv_tail Hv) as Hrest.
    simpl in Hfd.
    cbn [localJoins].
    rewrite (handleJoinQueue_local (setFormData st fd) clock Hfd).
    set (e := newEntry host (setFormData st fd) clock).
    set (st1 := joined (setFormData st fd) e).
    assert (Hpos : position e
                   = Z.of_nat (S (countSameTriple g h s (queueDatabase st)))).
    { unfold e, newEntry. cbn [position setFormData pendingData queueDatabase].
      rewrite calculatePosition_count, Hh, Hs.
      rewrite (countSameTriple_guests g _ h s _ Hg). lia. }
    assert (Hshare : sharesTriple g h s e).
    { unfold sharesTriple, e, newEntry.
      cbn [guests hall segment setFormData pendingData].
      auto. }
    assert (Hcount : countSameTriple g h s (queueDatabase st1)
                     = S (countSameTriple g h s (queueDatabase st))).
    { unfold st1, joined. cbn [queueDatabase setFormData].
      rewrite countSameTriple_app. simpl.
      destruct (sharesTriple_dec g h s e); [lia | contradiction]. }
    destruct (IH st1 Hrest Hg Hh Hs) as [IH1 [added [IH2 IH3]]].
    destruct (localJoins host st1 rest) as [st2 fx'] eqn:Erest.
    cbn [snd fst] in *. split.
    + cbn [app reportedPositions flat_map]. cbn [length seq map].
      rewrite Hpos. f_equal.
      fold (reportedPositions fx'). rewrite IH1, Hcount. reflexivity.
    + exists (e :: added). split.
      * rewrite IH2. unfold st1, joined. cbn [queueDatabase setFormData].
        rewrite <- app_assoc. reflexivity.
      * cbn [length seq map]. rewrite Hpos, IH3, Hcount. reflexivity.
Qed.

(** A guest count that is not a number equals no entry's, its own
    included: such a join is always given position 1. *)
Lemma calculatePosition_NaN db h s : calculatePosition db NaN h s = 1.
Proof.
  rewrite calculatePosition_count.
  assert (H : countSameTriple NaN h s db = 0%nat).
  { induction db as [| e db IH]; simpl; [reflexivity |].
    destruct (sharesTriple_dec NaN h s e) as [[Hg _] | _]; [| exact IH].
    destruct (guests e); discriminate. }
  rewrite H. reflexivity.
Qed.

Lemma calculatePosition_positive db g h s : 1 <= calculatePosition db g h s.
Proof. unfold calculatePosition. lia. Qed.

(** C1. The position [calculatePosition] assigns is one more than the
    number of entries of the list that share the (guests, hall, segment)
    triple, guest counts being compared as the component compares them;
    and N sequential local joins that resolve to the same triple, from a
    list holding [k] entries of that triple, are handed the positions
    k+1, ..., k+N in join order, which also are the positions of the N
    entries appended to the list: 1..N when the list held none. *)
Theorem position_is_count_plus_one_and_joins_are_numbered
    (g : number) (h s : string) :
  (forall db,
      calculatePosition db g h s
      = Z.of_nat (countSameTriple g h s db) + 1)
  /\ (forall st inputs,
        Forall (fun i => validForm (fst i)) inputs ->
        strict_eq (resolveGuests (pendingData st)) g = true ->
        resolveHall (pendingData st) = h ->
        resolveSegment (pendingData st) = s ->
        let k := countSameTriple g h s (queueDatabase st) in
        let numbered := map Z.of_nat (seq (S k) (length inputs)) in
        reportedPositions (snd (localJoins host st inputs)) = numbered
        /\ exists added,
            queueDatabase (fst (localJoins host st inputs))
            = (queueDatabase st ++ added)%list
            /\ map position added = numbered).
Proof.
  split.
  - intro db. apply calculatePosition_count.
  - intros st inputs Hv Hg Hh Hs. cbv zeta.
    apply localJoins_positions; assumption.
Qed.

End Position.

(** ** Dates *)

Section Dates.

Import JsString JsDate.

Lemma is_digit_val (c : ascii) : is_digit c = true -> 0 <= digit_val c <= 9.
Proof.
  unfold is_digit, digit_val. intro H.
  apply andb_true_iff in H. destruct H as [H1 H2].
  apply N.leb_le in H1. apply N.leb_le in H2. lia.
Qed.

Lemma days_in_month_le (y m : Z) : days_in_month y m <= 31.
Proof.
  unfold days_in_month.
  destruct (m =? 2); [destruct (is_leap y); lia |].
  destruct ((m =? 4) || (m =? 6) || (m =? 9) || (m =? 11)); lia.
Qed.

Lemma days_from_civil_range (y m d : Z) :
  0 <= y <= 9999 -> 1 <= m <= 12 -> 1 <= d <= 31 ->
  -719600 <= days_from_civil y m d <= 2933000.
Proof.
  intros Hy Hm Hd. unfold days_from_civil.
  destruct (m <=? 2) eqn:E;
    [apply Z.leb_le in E | apply Z.leb_gt in E]; cbv zeta;
    Z.div_mod_to_equations; lia.
Qed.

(** A date-only text names a day between the years 0 and 9999, well
    inside the range of dates. *)
Lemma iso_date_only_range (D : string) (k : Z) :
  iso_date_only D = Some k -> -719600 <= k <= 2933000.
Proof.
  unfold iso_date_only.
  destruct (list_ascii_of_string D)
    as [| y1 [| y2 [| y3 [| y4 [| h1 [| m1 [| m2 [| h2 [| d1 [| d2
        [| x l]]]]]]]]]]];
    try discriminate.
  destruct (forallb is_digit [y1; y2; y3; y4; m1; m2; d1; d2]
            && is_hyphen h1 && is_hyphen h2) eqn:E; [| discriminate].
  apply andb_true_iff in E. destruct E as [E _].
  apply andb_true_iff in E. destruct E as [E _].
  cbn [forallb] in E.
  repeat (apply andb_true_iff in E;
          let H := fresh "Hd" in
          destruct E as [H E]; apply is_digit_val in H).
  cbv beta zeta.
  assert (Hy : 0 <= dec_value 0 (string_of_list_ascii [y1; y2; y3; y4])
               <= 9999)
    by (cbn [string_of_list_ascii dec_value]; lia).
  assert (Hm : 0 <= dec_value 0 (string_of_list_ascii [m1; m2]) <= 99)
    by (cbn [string_of_list_ascii dec_value]; lia).
  assert (Hdd : 0 <= dec_value 0 (string_of_list_ascii [d1; d2]) <= 99)
    by (cbn [string_of_list_ascii dec_value]; lia).
  revert Hy Hm Hdd.
  generalize (dec_value 0 (string_of_list_ascii [y1; y2; y3; y4])).
  generalize (dec_value 0 (string_of_list_ascii [m1; m2])).
  generalize (dec_value 0 (string_of_list_ascii [d1; d2])).
  intros d m y Hy Hm Hdd H.
  destruct ((1 <=? m) && (m <=? 12) && (1 <=? d)
            && (d <=? days_in_month y m)) eqn:C; [| discriminate].
  assert (Hk : days_from_civil y m d = k) by congruence.
  rewrite <- Hk.
  repeat (apply andb_true_iff in C;
          let H := fresh "Hc" in
          destruct C as [C H]; apply Z.leb_le in H).
  apply Z.leb_le in C.
  pose proof (days_in_month_le y m).
  apply days_from_civil_range; lia.
Qed.

Lemma iso_date_only_truthy (D : string) (k : Z) :
  iso_date_only D = Some k -> truthy D = true.
Proof. destruct D; [discriminate | reflexivity]. Qed.

Lemma TimeClip_in_range (t : Z) :
  Z.abs t <= 8640000000000000 -> TimeClip t = Some t.
Proof.
  intro H. unfold TimeClip. apply Z.leb_le in H. rewrite H. reflexivity.
Qed.

End Dates.

(** ** The calendar date of an instant *)

Section Calendar.

Import JsString JsDate Reference.

Lemma allFrom_spec (n : nat) (p : Z -> bool) :
  forall z,
    allFrom n z p = true ->
    forall k, z <= k < z + Z.of_nat n -> p k = true.
Proof.
  induction n as [| n IH]; intros z H k Hk; [lia |].
  cbn [allFrom] in H. apply andb_true_iff in H. destruct H as [Hz Hrest].
  destruct (Z.eq_dec k z) as [-> | Hne]; [exact Hz |].
  apply (IH (z + 1) Hrest). lia.
Qed.

Lemma pad4_checked (n : Z) : 0 <= n <= 9999 -> padCheck 4 n = true.
Proof.
  intro H.
  assert (Hall : allFrom (Z.to_nat 10000) 0 (padCheck 4) = true)
    by (vm_compute; reflexivity).
  apply (allFrom_spec _ _ _ Hall). rewrite Z2Nat.id; lia.
Qed.

Lemma pad2_checked (n : Z) : 0 <= n <= 99 -> padCheck 2 n = true.
Proof.
  intro H.
  assert (Hall : allFrom (Z.to_nat 100) 0 (padCheck 2) = true)
    by (vm_compute; reflexivity).
  apply (allFrom_spec _ _ _ Hall). rewrite Z2Nat.id; lia.
Qed.

Lemma cycle_year (doe : Z) :
  0 <= doe < 146097 ->
  let yoe := (doe - doe / 1460 + doe / 36524 - doe / 146096) / 365 in
  let doy := doe - (365 * yoe + yoe / 4 - yoe / 100) in
  0 <= yoe <= 399 /\ 0 <= doy <= 365
  /\ (doy = 365 ->
      (yoe + 1) mod 4 = 0 /\ ((yoe + 1) mod 100 <> 0 \/ yoe + 1 = 400))
  /\ (146037 <= doe -> yoe = 399 /\ 306 <= doy)
  /\ (doe < 146037 -> yoe < 399 \/ doy < 306).
Proof.
  intros H yoe doy. subst doy yoe.
  Z.div_mod_to_equations; lia.
Qed.

Lemma year_day (doy : Z) :
  0 <= doy <= 365 ->
  let mp := (5 * doy + 2) / 153 in
  let d := doy - (153 * mp + 2) / 5 + 1 in
  0 <= mp <= 11 /\ 1 <= d <= 31
  /\ (mp = 1 \/ mp = 3 \/ mp = 6 \/ mp = 8 -> d <= 30)
  /\ (mp = 11 -> d <= 29 /\ (d = 29 -> doy = 365))
  /\ (153 * mp + 2) / 5 + d - 1 = doy
  /\ (306 <= doy <-> 10 <= mp).
Proof.
  intros H mp d. subst d mp.
  Z.div_mod_to_equations; lia.
Qed.

Lemma is_leap_shift (y k : Z) : is_leap (y + 400 * k) = is_leap y.
Proof.
  unfold is_leap.
  replace ((y + 400 * k) mod 4) with (y mod 4)
    by (replace (y + 400 * k) with (y + (100 * k) * 4) by lia;
        symmetry; apply Z.mod_add; lia).
  replace ((y + 400 * k) mod 100) with (y mod 100)
    by (replace (y + 400 * k) with (y + (4 * k) * 100) by lia;
        symmetry; apply Z.mod_add; lia).
  replace ((y + 400 * k) mod 400) with (y mod 400)
    by (replace (y + 400 * k) with (y + k * 400) by lia;
        symmetry; apply Z.mod_add; lia).
  reflexivity.
Qed.

Lemma is_leap_true (y : Z) :
  y mod 4 = 0 -> y mod 100 <> 0 \/ y mod 400 = 0 -> is_leap y = true.
Proof.
  intros H4 H. unfold is_leap. rewrite H4. cbn [Z.eqb andb].
  destruct H as [H | H].
  - apply Z.eqb_neq in H. rewrite H. reflexivity.
  - rewrite H. apply orb_true_r.
Qed.

Lemma days_in_month_cases (y m : Z) :
  (m = 2 -> days_in_month y m = if is_leap y then 29 else 28)
  /\ (m = 4 \/ m = 6 \/ m = 9 \/ m = 11 -> days_in_month y m = 30)
  /\ (m <> 2 -> m <> 4 -> m <> 6 -> m <> 9 -> m <> 11 ->
      days_in_month y m = 31).
Proof.
  unfold days_in_month. repeat split.
  - intros ->. reflexivity.
  - intros [-> | [-> | [-> | ->]]]; reflexivity.
  - intros H2 H4 H6 H9 H11.
    apply Z.eqb_neq in H2, H4, H6, H9, H11.
    rewrite H2, H4, H6, H9, H11. reflexivity.
Qed.

(** Every day number is the day number of its civil date, which is a date
    of the calendar; between 1 January 0 and 31 December 9999 the year is
    between 0 and 9999. *)
Lemma civil_date_of_day (z : Z) :
  let '(y, m, d) := civil_from_days z in
  1 <= m <= 12 /\ 1 <= d <= days_in_month y m
  /\ days_from_civil y m d = z
  /\ (-719528 <= z <= 2932896 -> 0 <= y <= 9999).
Proof.
  unfold civil_from_days. cbv zeta.
  set (era := (z + 719468) / 146097).
  set (doe := z + 719468 - era * 146097).
  assert (Hdoe : 0 <= doe < 146097)
    by (subst doe era; Z.div_mod_to_equations; lia).
  pose proof (cycle_year doe Hdoe) as Hy. cbv zeta in Hy.
  set (yoe := (doe - doe / 1460 + doe / 36524 - doe / 146096) / 365) in *.
  set (doy := doe - (365 * yoe + yoe / 4 - yoe / 100)) in *.
  destruct Hy as (Hyoe & Hdoy & Hleap & Hlate & Hearly).
  pose proof (year_day doy Hdoy) as Hd. cbv zeta in Hd.
  set (mp := (5 * doy + 2) / 153) in *.
  set (d := doy - (153 * mp + 2) / 5 + 1) in *.
  destruct Hd as (Hmp & Hdr & H30 & Hfeb & Hinv & Hjan).
  assert (Hera : (yoe + era * 400) / 400 = era)
    by (Z.div_mod_to_equations; lia).
  destruct (mp <? 10) eqn:Emp;
    [apply Z.ltb_lt in Emp | apply Z.ltb_ge in Emp].
  - replace (mp + 3 <=? 2) with false by (symmetry; apply Z.leb_gt; lia).
    destruct (days_in_month_cases (yoe + era * 400) (mp + 3))
      as (_ & D30 & D31).
    split; [lia |]. split; [| split].
    + destruct (Z.eq_dec mp 1) as [E | E];
        [rewrite D30 by lia; lia |].
      destruct (Z.eq_dec mp 3) as [E3 | E3];
        [rewrite D30 by lia; lia |].
      destruct (Z.eq_dec mp 6) as [E6 | E6];
        [rewrite D30 by lia; lia |].
      destruct (Z.eq_dec mp 8) as [E8 | E8];
        [rewrite D30 by lia; lia |].
      rewrite D31 by lia. lia.
    + unfold days_from_civil. cbv zeta.
      replace (mp + 3 <=? 2) with false by (symmetry; apply Z.leb_gt; lia).
      rewrite Hera.
      replace (yoe + era * 400 - era * 400) with yoe by lia.
      replace (mp + 3 - 3) with mp by lia.
      rewrite Hinv. subst doy doe. lia.
    + intro Hr. subst doe. lia.
  - replace (mp - 9 <=? 2) with true by (symmetry; apply Z.leb_le; lia).
    destruct (days_in_month_cases (yoe + era * 400 + 1) (mp - 9))
      as (D2 & _ & D31).
    split; [lia |]. split; [| split].
    + destruct (Z.eq_dec mp 11) as [E | E].
      * rewrite D2 by lia. destruct Hfeb as [H29 Hlast]; [exact E |].
        destruct (Z.eq_dec d 29) as [Ed | Ed].
        -- specialize (Hleap (Hlast Ed)). destruct Hleap as [H4 H100].
           replace (yoe + era * 400 + 1) with (yoe + 1 + 400 * era) by lia.
           rewrite is_leap_shift, is_leap_true; [lia | exact H4 |].
           destruct H100 as [H | H]; [left; exact H |].
           right. rewrite H. reflexivity.
        -- destruct (is_leap (yoe + era * 400 + 1)); lia.
      * rewrite D31 by lia. lia.
    + unfold days_from_civil. cbv zeta.
      replace (mp - 9 <=? 2) with true by (symmetry; apply Z.leb_le; lia).
      replace (yoe + era * 400 + 1 - 1) with (yoe + era * 400) by lia.
      rewrite Hera.
      replace (yoe + era * 400 - era * 400) with yoe by lia.
      replace (mp - 9 + 9) with mp by lia.
      rewrite Hinv. subst doy doe. lia.
    + intro Hr. subst doe. lia.
Qed.

Lemma pad_digits (w : nat) (n : Z) :
  padCheck w n = true ->
  exists l,
    pad w n = string_of_list_ascii l /\ length l = w
    /\ forallb is_digit l = true
    /\ dec_value 0 (string_of_list_ascii l) = n.
Proof.
  unfold padCheck. intro H.
  apply andb_true_iff in H. destruct H as [H H3].
  apply andb_true_iff in H. destruct H as [H1 H2].
  apply Nat.eqb_eq in H1. apply Z.eqb_eq in H3.
  exists (list_ascii_of_string (pad w n)).
  rewrite string_of_list_ascii_of_string. repeat split; assumption.
Qed.

(** For every instant of the years 0 to 9999, the date text that
    [toISOString] gives is read back by the date-only form as the day in
    UTC of the instant. *)
Lemma toISODate_names_its_day (t : Z) :
  -62167219200000 <= t < 253402300800000 ->
  iso_date_only (toISODate t) = Some (t / msPerDay).
Proof.
  intro Ht.
  assert (Hz : -719528 <= t / msPerDay <= 2932896).
  { unfold msPerDay. split.
    - apply Z.div_le_lower_bound; lia.
    - apply Z.lt_succ_r. apply Z.div_lt_upper_bound; lia. }
  unfold toISODate.
  pose proof (civil_date_of_day (t / msPerDay)) as Hc.
  destruct (civil_from_days (t / msPerDay)) as [[y m] d].
  destruct Hc as [Hm [Hd [Hback Hy]]]. specialize (Hy Hz).
  pose proof (days_in_month_le y m) as Hdim.
  assert (Hyb : (0 <=? y) && (y <=? 9999) = true).
  { apply andb_true_iff. split; apply Z.leb_le; lia. }
  rewrite Hyb.
  destruct (pad_digits 4 y (pad4_checked y Hy))
    as [ly [Ely [Lly [Dly Vly]]]].
  destruct (pad_digits 2 m (pad2_checked m ltac:(lia)))
    as [lm [Elm [Llm [Dlm Vlm]]]].
  destruct (pad_digits 2 d (pad2_checked d ltac:(lia)))
    as [ld [Eld [Lld [Dld Vld]]]].
  rewrite Ely, Elm, Eld.
  destruct ly as [| y1 [| y2 [| y3 [| y4 [| ? ?]]]]]; try discriminate.
  destruct lm as [| m1 [| m2 [| ? ?]]]; try discriminate.
  destruct ld as [| d1 [| d2 [| ? ?]]]; try discriminate.
  unfold iso_date_only.
  cbn [string_of_list_ascii append list_ascii_of_string].
  cbn [forallb] in *.
  repeat match goal with
         | H : _ && _ = true |- _ =>
             apply andb_true_iff in H; destruct H
         end.
  repeat match goal with
         | H : is_digit _ = true |- _ => rewrite H; clear H
         end.
  cbn [andb forallb].
  change (is_hyphen "-") with true. cbn [andb].
  cbn [string_of_list_ascii] in Vly, Vlm, Vld.
  cbv beta zeta. cbn [string_of_list_ascii]. rewrite Vly, Vlm, Vld.
  assert (Hok : (1 <=? m) && (m <=? 12) && (1 <=? d)
                && (d <=? days_in_month y m) = true).
  { repeat (apply andb_true_iff; split); apply Z.leb_le; lia. }
  rewrite Hok, Hback. reflexivity.
Qed.

End Calendar.

(** ** Estimated wait *)

Section Wait.

Import JsString JsNumber JsDate Queue Spec Scenario Hosts.

Lemma inject_Z_sub (a b : Z) :
  (inject_Z (a - b) == inject_Z a - inject_Z b)%Q.
Proof.
  unfold Qeq, Qminus, Qplus, Qopp, inject_Z. simpl. lia.
Qed.

Lemma same_trans (a b c : number) : same a b -> same b c -> same a c.
Proof.
  destruct a, b, c; simpl; try tauto.
  intros H1 H2. rewrite H1. exact H2.
Qed.

Lemma positionWait_same (pos joined now : Z) :
  same (positionWait pos joined now) (positionEstimate pos joined now).
Proof.
  unfold positionWait, positionEstimate.
  cbn [nsub nmul ndiv ofZ].
  change (Qeq_bool (inject_Z (1000 * 60)) 0) with false. cbv iota.
  eapply same_trans; [apply Math_max_zero_same |].
  unfold max0, same. apply Q.max_compat; [reflexivity |].
  rewrite inject_Z_sub. reflexivity.
Qed.

Lemma slotWait_valid (start now : Z) :
  same (slotWait (Some start) now) (slotEstimate start now).
Proof.
  unfold slotWait, slotEstimate.
  cbn [getTime nsub ndiv ofZ].
  change (Qeq_bool (inject_Z (1000 * 60)) 0) with false. cbv iota.
  eapply same_trans; [apply Math_max_zero_same |].
  unfold max0, same. apply Q.max_compat; [reflexivity |].
  rewrite inject_Z_sub. reflexivity.
Qed.

Lemma slotWait_nonneg (start now : Z) :
  nonneg (slotWait (Some start) now).
Proof.
  unfold slotWait. cbn [getTime nsub ndiv ofZ].
  change (Qeq_bool (inject_Z (1000 * 60)) 0) with false. cbv iota.
  apply Math_max_zero_nonneg.
Qed.

Lemma slotWait_invalid (now : Z) : slotWait None now = NaN.
Proof. reflexivity. Qed.

Lemma positionWait_nonneg (pos joined now : Z) :
  nonneg (positionWait pos joined now).
Proof. apply Math_max_zero_nonneg. Qed.

Lemma noSlot_falsy (o : option string) :
  o = None \/ o = Some "" -> truthyO o = false.
Proof. intros [-> | ->]; reflexivity. Qed.

Variable host : Host.

(** Whatever the entry and the clock, the tick computes a wait that is
    zero or more, or is not a number; the latter exactly when the slot
    parses to a start that is an Invalid Date. *)
Lemma newEstimatedWaitMinutes_nonneg_or_nan (now : Z) (e : QueueEntry) :
  nonneg (newEstimatedWaitMinutes host now e)
  \/ (newEstimatedWaitMinutes host now e = NaN
      /\ exists stop,
          parseSlotTimes host (queueDate e) (orElse (timeSlot e) "")
          = Some (None, stop)).
Proof.
  unfold newEstimatedWaitMinutes.
  destruct (truthyO (timeSlot e) && truthy (queueDate e)).
  - destruct (parseSlotTimes host (queueDate e) (orElse (timeSlot e) ""))
      as [[[start |] stop] |].
    + left. apply slotWait_nonneg.
    + right. split; [reflexivity | exists stop; reflexivity].
    + left. simpl. apply Qle_refl.
  - left. apply positionWait_nonneg.
Qed.


(** At join the wait starts from position x 15 whenever there is no
    slot or the slot does not parse. *)
Lemma initialWaitMinutes_fallback (dateStr slot : string) (pos t : Z) :
  truthy slot && truthy dateStr = false
  \/ parseSlotTimes host dateStr slot = None ->
  initialWaitMinutes host dateStr slot pos t = nmul (ofZ pos) (ofZ 15).
Proof.
  unfold initialWaitMinutes. intros [H | H]; rewrite H.
  - reflexivity.
  - destruct (truthy slot && truthy dateStr); reflexivity.
Qed.

(** At join too the wait is zero or more, or is not a number when the
    slot parses to a start that is an Invalid Date. *)
Lemma initialWaitMinutes_nonneg_or_nan (dateStr slot : string) (pos t : Z) :
  0 <= pos ->
  nonneg (initialWaitMinutes host dateStr slot pos t)
  \/ (initialWaitMinutes host dateStr slot pos t = NaN
      /\ exists stop, parseSlotTimes host dateStr slot = Some (None, stop)).
Proof.
  intro Hpos.
  assert (Hfb : nonneg (nmul (ofZ pos) (ofZ 15))).
  { simpl. unfold Qle, Qmult, inject_Z. simpl. lia. }
  unfold initialWaitMinutes.
  destruct (truthy slot && truthy dateStr); [| left; exact Hfb].
  destruct (parseSlotTimes host dateStr slot) as [[[start |] stop] |].
  - left. apply slotWait_nonneg.
  - right. split; [reflexivity | exists stop; reflexivity].
  - left. exact Hfb.
Qed.

(** On a tick, an entry whose slot is present and does not parse gets
    the wait zero: the position-based branch is the [else] of the test
    for a slot, so it is not reached. *)
Lemma newEstimatedWaitMinutes_unparsed_slot (now : Z) (e : QueueEntry)
    (slot : string) :
  timeSlot e = Some slot ->
  truthy slot = true ->
  truthy (queueDate e) = true ->
  parseSlotTimes host (queueDate e) slot = None ->
  newEstimatedWaitMinutes host now e = ofZ 0.
Proof.
  intros Hs Ht Hd Hp. unfold newEstimatedWaitMinutes.
  rewrite Hs. cbn [truthyO orElse]. rewrite Ht, Hd. cbn [andb].
  rewrite Hp. reflexivity.
Qed.

(** On a tick, a slot that parses to the valid start instant [start]
    gives the minutes from now to it, or zero once it has passed. *)
Lemma newEstimatedWaitMinutes_parsed_slot (now : Z) (e : QueueEntry)
    (slot : string) (start : Z) (stop : Date) :
  timeSlot e = Some slot ->
  truthy slot = true ->
  truthy (queueDate e) = true ->
  parseSlotTimes host (queueDate e) slot = Some (Some start, stop) ->
  same (newEstimatedWaitMinutes host now e) (slotEstimate start now).
Proof.
  intros Hs Ht Hd Hp. unfold newEstimatedWaitMinutes.
  rewrite Hs. cbn [truthyO orElse]. rewrite Ht, Hd. cbn [andb].
  rewrite Hp. apply slotWait_valid.
Qed.

(** For the date-only form, [setHours] lands on the calendar day that
    midnight UTC falls on in local time: the named day at or east of
    Greenwich, the day before it to the west. *)
Lemma setHours_on_date_only (k h min : Z) :
  - msPerDay <= LocalTZA host < msPerDay ->
  Z.abs (k * msPerDay) <= 8640000000000000 ->
  setHours host (TimeClip (k * msPerDay)) h min 0 0
  = TimeClip (wallClock host (if 0 <=? LocalTZA host then k else k - 1)
                        h min).
Proof.
  intros Htz Hk. unfold TimeClip at 1.
  apply Z.leb_le in Hk. rewrite Hk. unfold setHours, wallClock.
  f_equal.
  assert (Hday : (k * msPerDay + LocalTZA host) / msPerDay
                 = if 0 <=? LocalTZA host then k else k - 1).
  { unfold msPerDay in *.
    destruct (0 <=? LocalTZA host) eqn:E.
    - apply Z.leb_le in E. symmetry.
      apply (Z.div_unique _ _ k (LocalTZA host)); lia.
    - apply Z.leb_gt in E. symmetry.
      apply (Z.div_unique _ _ (k - 1) (LocalTZA host + 86400000)); lia. }
  rewrite Hday. lia.
Qed.

(** A token the pattern accepts, on a date-only service date: the start
    is that clock reading on the named day at or east of Greenwich, on the
    day before it to the west. *)
Lemma parsePart_on_date_only (D p m1 m2 m3 : string) (k : Z) :
  - msPerDay <= LocalTZA host < msPerDay ->
  iso_date_only D = Some k ->
  regex_match p = Some (m1, m2, m3) ->
  parsePart host D p
  = Some (TimeClip
            (wallClock host (if 0 <=? LocalTZA host then k else k - 1)
                       (hour24 (dec_value 0 m1) (toUpperCase m3))
                       (dec_value 0 m2))).
Proof.
  intros Htz HD Hm. unfold parsePart. rewrite Hm.
  unfold Date_parse. rewrite HD.
  pose proof (iso_date_only_range D k HD) as Hk.
  rewrite setHours_on_date_only;
    [| exact Htz | unfold msPerDay; lia].
  unfold hour24.
  destruct (String.eqb (toUpperCase m3) "PM") eqn:Epm.
  - apply String.eqb_eq in Epm. rewrite Epm. cbn [andb].
    change (String.eqb "PM" "AM") with false. cbn [andb].
    destruct (dec_value 0 m1 <? 12); reflexivity.
  - cbn [andb].
    destruct (String.eqb (toUpperCase m3) "AM"); cbn [andb];
      [destruct (dec_value 0 m1 =? 12) |]; reflexivity.
Qed.

Lemma claimed_slot_parts :
  map trim (splitDash "6:00 PM – 6:30 PM") = ["6:00 PM"; "6:30 PM"].
Proof. reflexivity. Qed.

(** The slot "6:00 PM – 6:30 PM" on a date-only service date, read by the
    tick at 5:45 PM local time of that date: fifteen minutes at or east of
    Greenwich, zero to the west. *)
Lemma claimed_slot_by_time_zone (e : QueueEntry) (k : Z) :
  - msPerDay <= LocalTZA host < msPerDay ->
  iso_date_only (queueDate e) = Some k ->
  timeSlot e = Some "6:00 PM – 6:30 PM" ->
  same (newEstimatedWaitMinutes host (wallClock host k 17 45) e)
       (if 0 <=? LocalTZA host then Num 15 else Num 0).
Proof.
  intros Htz HD Hslot.
  pose proof (iso_date_only_range _ _ HD) as Hk.
  assert (Hp : parseSlotTimes host (queueDate e) "6:00 PM – 6:30 PM"
               = Some (TimeClip
                         (wallClock host
                            (if 0 <=? LocalTZA host then k else k - 1)
                            18 0),
                       TimeClip
                         (wallClock host
                            (if 0 <=? LocalTZA host then k else k - 1)
                            18 30))).
  { unfold parseSlotTimes. cbn [truthy negb]. rewrite claimed_slot_parts.
    rewrite (parsePart_on_date_only _ "6:00 PM" "6" "00" "PM" k
               Htz HD eq_refl).
    rewrite (parsePart_on_date_only _ "6:30 PM" "6" "30" "PM" k
               Htz HD eq_refl).
    reflexivity. }
  rewrite TimeClip_in_range in Hp.
  2:{ unfold wallClock, msPerDay, msPerHour, msPerMinute in *.
      destruct (0 <=? LocalTZA host); lia. }
  eapply same_trans.
  - apply (newEstimatedWaitMinutes_parsed_slot _ e _ _ _ Hslot eq_refl
             (iso_date_only_truthy _ _ HD) Hp).
  - unfold slotEstimate, max0, same, wallClock, msPerDay, msPerHour,
      msPerMinute.
    destruct (0 <=? LocalTZA host).
    + replace (k * 86400000 + 18 * 3600000 + 0 * 60000 - LocalTZA host
               - (k * 86400000 + 17 * 3600000 + 45 * 60000
                  - LocalTZA host))
        with 900000 by lia.
      reflexivity.
    + replace ((k - 1) * 86400000 + 18 * 3600000 + 0 * 60000
               - LocalTZA host
               - (k * 86400000 + 17 * 3600000 + 45 * 60000
                  - LocalTZA host))
        with (-85500000) by lia.
      reflexivity.
Qed.

End Wait.

(** ** The estimated wait on concrete browsers *)

Module WaitCases.

Import JsString JsNumber JsDate Queue Spec Scenario Hosts.

(** In Kolkata the slot "6:00 PM – 6:30 PM" of 15 January 2024, read at
    5:45 PM that day, is fifteen minutes away. *)
Lemma slot_wait_in_kolkata :
  let e := entryWith "2024-01-15" (Some "6:00 PM – 6:30 PM") 1
                     (wallClock kolkata day 17 0) in
  let now := wallClock kolkata day 17 45 in
  parseSlotTimes kolkata (queueDate e) "6:00 PM – 6:30 PM"
  = Some (Some (wallClock kolkata day 18 0),
          Some (wallClock kolkata day 18 30))
  /\ same (newEstimatedWaitMinutes kolkata now e) (Num 15).
Proof. split; vm_compute; reflexivity. Qed.

(** C3. In New York the same slot of the same service date, read at
    5:45 PM that day, is computed from 6:00 PM of the day before: the
    date-only text is midnight UTC, which local clocks west of Greenwich
    still show as the previous evening, and [setHours] keeps that local
    day. The wait is 0 at join and on the tick, where the slot start of
    the service date is fifteen minutes away. *)
Theorem slot_wait_west_of_utc_uses_the_day_before :
  let slot := "6:00 PM – 6:30 PM" in
  let e := entryWith "2024-01-15" (Some slot) 1
                     (wallClock newYork day 17 0) in
  let now := wallClock newYork day 17 45 in
  let st := fresh (Some (staged "2024-01-15" slot)) asha in
  iso_date_only (queueDate e) = Some day
  /\ parseSlotTimes newYork (queueDate e) slot
     = Some (Some (wallClock newYork (day - 1) 18 0),
             Some (wallClock newYork (day - 1) 18 30))
  /\ same (newEstimatedWaitMinutes newYork now e) (Num 0)
  /\ same (estimatedWaitMinutes (newEntry newYork st (clockAt now))) (Num 0)
  /\ same (slotEstimate (wallClock newYork day 18 0) now) (Num 15).
Proof. repeat split; vm_compute; reflexivity. Qed.

(** C2. A slot whose hour carries the start beyond the range of dates,
    and a service date that is not a date, both make the slot start an
    Invalid Date; [parseSlotTimes] still returns it, the difference is
    not a number and [Math.max(0, NaN)] is not a number either: the wait
    is [NaN], at join and on every tick, and [0 <= NaN] does not hold. *)
Theorem wait_is_not_a_number_for_an_invalid_slot_start :
  let t := wallClock kolkata day 17 45 in
  let hours := "9999999999:00 AM - 1:00 PM" in
  let e1 := newEntry kolkata (fresh (Some (staged "2024-01-15" hours)) asha)
                     (clockAt t) in
  let e2 := newEntry kolkata
                     (fresh (Some (staged "15/01/2024" "6:00 PM – 6:30 PM"))
                            asha)
                     (clockAt t) in
  (estimatedWaitMinutes e1 = NaN
   /\ newEstimatedWaitMinutes kolkata (t + 1000) e1 = NaN
   /\ ~ nonneg (estimatedWaitMinutes e1)
   /\ ~ nonneg (newEstimatedWaitMinutes kolkata (t + 1000) e1))
  /\ (estimatedWaitMinutes e2 = NaN
      /\ newEstimatedWaitMinutes kolkata (t + 1000) e2 = NaN
      /\ ~ nonneg (estimatedWaitMinutes e2)
      /\ ~ nonneg (newEstimatedWaitMinutes kolkata (t + 1000) e2)).
Proof.
  cbv zeta.
  split; (split; [vm_compute; reflexivity |]);
    (split; [vm_compute; reflexivity |]);
    split; vm_compute; intro H; exact H.
Qed.

(** C6. An entry at position 3 whose slot text has no separator, or
    whose tokens carry no AM/PM, starts at 3 x 15 = 45 minutes at join;
    ten minutes later the tick gives it 0, where the position-based
    estimate is 35. *)
Theorem tick_gives_zero_for_an_unparsable_slot :
  let joinedAt := wallClock kolkata day 17 0 in
  let now := joinedAt + 10 * 60000 in
  let e1 := entryWith "2024-01-15" (Some "6:00 PM") 3 joinedAt in
  let e2 := entryWith "2024-01-15" (Some "18:00 - 19:00") 3 joinedAt in
  parseSlotTimes kolkata "2024-01-15" "6:00 PM" = None
  /\ parseSlotTimes kolkata "2024-01-15" "18:00 - 19:00" = None
  /\ same (initialWaitMinutes kolkata "2024-01-15" "6:00 PM" 3 joinedAt)
          (Num 45)
  /\ same (initialWaitMinutes kolkata "2024-01-15" "18:00 - 19:00" 3
                              joinedAt)
          (Num 45)
  /\ newEstimatedWaitMinutes kolkata now e1 = Num 0
  /\ newEstimatedWaitMinutes kolkata now e2 = Num 0
  /\ same (positionEstimate 3 joinedAt now) (Num 35).
Proof. repeat split; vm_compute; reflexivity. Qed.

End WaitCases.

(** ** The five-minute notice *)

Section Notice.

Import JsString JsNumber JsDate Queue Spec Scenario.

Variable host : Host.

Lemma withWait_self (e : QueueEntry) :
  withWait e (estimatedWaitMinutes e) (notifiedAt5Min e) = e.
Proof. destruct e; reflexivity. Qed.

(** The wait a tick computes reads the slot, the service date, the
    position and the join instant only: none of them changes on a tick. *)
Lemma newEstimatedWaitMinutes_withWait (t : Z) (e : QueueEntry) w f :
  newEstimatedWaitMinutes host t (withWait e w f)
  = newEstimatedWaitMinutes host t e.
Proof. reflexivity. Qed.

Lemma window_test_iff (w : number) :
  nle w (ofZ 5) && ngt w (ofZ 0) = true <-> inNoticeWindow w.
Proof.
  destruct w as [q |]; simpl; [| split; [discriminate | tauto]].
  rewrite andb_true_iff, negb_true_iff, Qle_bool_iff.
  split.
  - intros [H5 H0]. split; [| exact H5].
    apply Qnot_le_lt. intro H. apply Qle_bool_iff in H.
    unfold inject_Z in H0. congruence.
  - intros [H0 H5]. split; [exact H5 |].
    destruct (Qle_bool q (inject_Z 0)) eqn:E; [| reflexivity].
    apply Qle_bool_iff in E. exfalso.
    apply (Qlt_not_le _ _ H0). exact E.
Qed.

Lemma tickEntry_in_window (t : Z) (e : QueueEntry) :
  notifiedAt5Min e = false ->
  inNoticeWindow (newEstimatedWaitMinutes host t e) ->
  tickEntry host t e
  = (withWait e (newEstimatedWaitMinutes host t e) true,
     [AlertTableReady (tableName e) (guests e)]).
Proof.
  intros Hf Hw. unfold tickEntry.
  apply window_test_iff in Hw. rewrite Hw, Hf. reflexivity.
Qed.

Lemma tickEntry_out_of_window (t : Z) (e : QueueEntry) :
  ~ inNoticeWindow (newEstimatedWaitMinutes host t e) ->
  tickEntry host t e
  = (withWait e (newEstimatedWaitMinutes host t e) (notifiedAt5Min e), []).
Proof.
  intro Hw. unfold tickEntry.
  destruct (nle (newEstimatedWaitMinutes host t e) (ofZ 5)
            && ngt (newEstimatedWaitMinutes host t e) (ofZ 0)) eqn:E.
  - apply window_test_iff in E. contradiction.
  - reflexivity.
Qed.

Lemma tickEntry_notified (t : Z) (e : QueueEntry) :
  notifiedAt5Min e = true ->
  tickEntry host t e
  = (withWait e (newEstimatedWaitMinutes host t e) true, []).
Proof.
  intro Hf. unfold tickEntry. rewrite Hf, andb_false_r. reflexivity.
Qed.

Lemma ticks_app (a b : list Z) (prev : option QueueEntry) :
  ticks host (a ++ b) prev
  = (fst (ticks host b (fst (ticks host a prev))),
     (snd (ticks host a prev)
      ++ snd (ticks host b (fst (ticks host a prev))))%list).
Proof.
  revert prev. induction a as [| t a IH]; intro prev; simpl.
  - destruct (ticks host b prev); reflexivity.
  - destruct (tick host t prev) as [mid fx]. rewrite IH.
    destruct (ticks host a mid) as [m fx1]. simpl.
    destruct (ticks host b m) as [l fx2]. simpl.
    rewrite app_assoc. reflexivity.
Qed.

(** Before the wait enters the window nothing is raised and the flag
    stays down. *)
Lemma ticks_before_notice (pre : list Z) :
  forall e,
    notifiedAt5Min e = false ->
    Forall (fun t => ~ inNoticeWindow (newEstimatedWaitMinutes host t e))
           pre ->
    exists w, ticks host pre (Some e) = (Some (withWait e w false), []).
Proof.
  induction pre as [| t pre IH]; intros e Hf Hpre.
  - exists (estimatedWaitMinutes e). simpl.
    rewrite <- Hf, withWait_self. reflexivity.
  - pose proof (Forall_inv Hpre) as Ht.
    pose proof (Forall_inv_tail Hpre) as Hrest.
    cbn [ticks tick]. rewrite (tickEntry_out_of_window t e Ht), Hf.
    destruct (IH (withWait e (newEstimatedWaitMinutes host t e) false)
                 eq_refl Hrest) as [w Hw].
    rewrite Hw. exists w. reflexivity.
Qed.

(** Once the flag is up, no tick raises anything and the flag stays up. *)
Lemma ticks_after_notice (later : list Z) :
  forall e,
    notifiedAt5Min e = true ->
    exists w, ticks host later (Some e) = (Some (withWait e w true), []).
Proof.
  induction later as [| t later IH]; intros e Hf.
  - exists (estimatedWaitMinutes e). simpl.
    rewrite <- Hf, withWait_self. reflexivity.
  - cbn [ticks tick]. rewrite (tickEntry_notified t e Hf).
    destruct (IH (withWait e (newEstimatedWaitMinutes host t e) true)
                 eq_refl) as [w Hw].
    rewrite Hw. exists w. reflexivity.
Qed.

(** C5. Take an entry whose flag is down and a run of ticks: readings
    [pre] at which its wait is outside (0, 5], then a reading [now] at
    which it is inside, then any readings [post]. The ticks of [pre]
    raise nothing and leave the flag down; the tick at [now] raises one
    alert and puts the flag up; after it, whatever readings follow (the
    wait still inside the window or not), nothing is raised and the flag
    is up; over the whole run exactly that one alert is raised. *)
Theorem notice_fires_once (e : QueueEntry) (pre post : list Z) (now : Z) :
  notifiedAt5Min e = false ->
  Forall (fun t => ~ inNoticeWindow (newEstimatedWaitMinutes host t e))
         pre ->
  inNoticeWindow (newEstimatedWaitMinutes host now e) ->
  exists e1 e2,
    ticks host pre (Some e) = (Some e1, [])
    /\ notifiedAt5Min e1 = false
    /\ tick host now (Some e1)
       = (Some e2, [AlertTableReady (tableName e) (guests e)])
    /\ notifiedAt5Min e2 = true
    /\ (forall later,
           exists e3,
             ticks host later (Some e2) = (Some e3, [])
             /\ notifiedAt5Min e3 = true)
    /\ snd (ticks host (pre ++ now :: post) (Some e))
       = [AlertTableReady (tableName e) (guests e)].
Proof.
  intros Hf Hpre Hnow.
  destruct (ticks_before_notice pre e Hf Hpre) as [w1 H1].
  set (e1 := withWait e w1 false) in *.
  set (e2 := withWait e (newEstimatedWaitMinutes host now e) true).
  assert (H2 : tick host now (Some e1)
               = (Some e2, [AlertTableReady (tableName e) (guests e)])).
  { cbn [tick].
    rewrite (tickEntry_in_window now e1 eq_refl Hnow). reflexivity. }
  assert (H3 : forall later,
             exists e3,
               ticks host later (Some e2) = (Some e3, [])
               /\ notifiedAt5Min e3 = true).
  { intro later.
    destruct (ticks_after_notice later e2 eq_refl) as [w3 Hw3].
    exists (withWait e2 w3 true). split; [exact Hw3 | reflexivity]. }
  exists e1, e2. repeat split; try assumption; try reflexivity.
  rewrite ticks_app, H1. cbn [fst snd app ticks]. rewrite H2.
  destruct (H3 post) as [e3 [Hpost _]]. rewrite Hpost. reflexivity.
Qed.

End Notice.

(** ** Join and cancel *)

Section Handlers.

Import JsString JsNumber JsDate Queue Spec Scenario.

Variable host : Host.

Lemma handleJoinQueue_rejected st clock remote :
  trim (Form.name (formData st)) = ""
  \/ trim (Form.contact (formData st)) = "" ->
  exists msg, handleJoinQueue host st clock remote = (st, [Alert msg]).
Proof.
  intro H. unfold handleJoinQueue.
  destruct (truthy (trim (Form.name (formData st)))) eqn:En; cbn [negb].
  - destruct H as [H | H].
    + apply truthy_true_iff in En. contradiction.
    + apply truthy_false_iff in H. rewrite H. cbn [negb].
      eexists; reflexivity.
  - eexists; reflexivity.
Qed.

Lemma handleJoinQueue_accepted st clock remote :
  validForm (formData st) ->
  handleJoinQueue host st clock remote
  = match remote with
    | Some created =>
        (joined st created,
         [RemoteJoin (newEntry host st clock);
          OnJoinQueue (position created);
          RemoveItem "pendingQueueData"])
    | None =>
        (joined st (newEntry host st clock),
         [RemoteJoin (newEntry host st clock);
          OnJoinQueue (position (newEntry host st clock));
          RemoveItem "pendingQueueData"])
    end.
Proof.
  intros [Hn Hc]. unfold handleJoinQueue.
  apply truthy_true_iff in Hn. apply truthy_true_iff in Hc.
  rewrite Hn, Hc. reflexivity.
Qed.

Lemma validForm_dec (fd : Form.FormData) :
  validForm fd
  \/ (trim (Form.name fd) = "" \/ trim (Form.contact fd) = "").
Proof.
  unfold validForm.
  destruct (string_dec (trim (Form.name fd)) "") as [H | H];
    [right; left; exact H |].
  destruct (string_dec (trim (Form.contact fd)) "") as [H' | H'];
    [right; right; exact H' |].
  left; split; assumption.
Qed.

(** C8. A join goes through (the entry is submitted, [onJoinQueue] is
    called) only when the trimmed name and the trimmed contact are both
    non-empty; when one of them is empty the handler raises one alert and
    returns at once: no remote call, and the whole state (queue list,
    current-user entry, staged data, form) is the state it started from. *)
Theorem join_requires_name_and_contact
    (st : State) (clock : JoinClock) (remote : option QueueEntry) :
  (forall fx st',
      handleJoinQueue host st clock remote = (st', fx) ->
      (exists p, In (OnJoinQueue p) fx)
      \/ (exists e, In (RemoteJoin e) fx)
      \/ st' <> st ->
      validForm (formData st))
  /\ (trim (Form.name (formData st)) = ""
      \/ trim (Form.contact (formData st)) = "" ->
      exists msg,
        handleJoinQueue host st clock remote = (st, [Alert msg])).
Proof.
  split; [| apply handleJoinQueue_rejected].
  intros fx st' Hrun Hthrough.
  destruct (validForm_dec (formData st)) as [Hv | Hbad]; [exact Hv |].
  destruct (handleJoinQueue_rejected st clock remote Hbad) as [msg Hmsg].
  rewrite Hmsg in Hrun. inversion Hrun; subst.
  exfalso. destruct Hthrough as [[p Hp] | [[e He] | Hne]].
  - simpl in Hp. destruct Hp as [Hp | []]. discriminate.
  - simpl in He. destruct He as [He | []]. discriminate.
  - apply Hne. reflexivity.
Qed.

(** What a join submits is the entry built at the press. *)
Lemma submitted_is_newEntry
    (st : State) (clock : JoinClock) (remote : option QueueEntry)
    (e : QueueEntry) :
  In (RemoteJoin e) (snd (handleJoinQueue host st clock remote)) ->
  e = newEntry host st clock.
Proof.
  intro Hin.
  destruct (validForm_dec (formData st)) as [Hv | Hbad].
  - rewrite (handleJoinQueue_accepted st clock remote Hv) in Hin.
    destruct remote; simpl in Hin;
      destruct Hin as [Hin | [Hin | [Hin | []]]];
      try discriminate; inversion Hin; reflexivity.
  - destruct (handleJoinQueue_rejected st clock remote Hbad) as [m Hm].
    rewrite Hm in Hin. simpl in Hin.
    destruct Hin as [Hin | []]. discriminate.
Qed.

(** C10. The entry a join submits has the notification channel "sms";
    each staged field that is absent takes its default: guest count 2,
    hall "Any", segment "Any", the empty slot. Its position is
    [calculatePosition] at the resolved triple and, with no slot, its wait
    is position x 15. The default service date is not today's date: for
    every instant of the years 0 to 9999 it is the date of the day in UTC,
    so it is the date the user's calendar shows exactly when the local day
    and the day in UTC are the same day, and the date of another day
    otherwise. *)
Theorem join_defaults_with_the_date_of_utc
    (st : State) (clock : JoinClock) (remote : option QueueEntry)
    (e : QueueEntry) :
  In (RemoteJoin e) (snd (handleJoinQueue host st clock remote)) ->
  let pd := pendingData st in
  let t := atDate clock in
  notificationMethod e = sms
  /\ (Pending.field pd Pending.guests = None -> guests e = ofZ 2)
  /\ (Pending.field pd Pending.tableLocation = None ->
      Pending.field pd Pending.location = None ->
      hall e = "Any")
  /\ (Pending.field pd Pending.tableSegment = None ->
      Pending.field pd Pending.segment = None ->
      segment e = "Any")
  /\ (Pending.field pd Pending.queueDate = None ->
      -62167219200000 <= t < 253402300800000 ->
      namesDay (queueDate e) (utcDay t)
      /\ (namesDay (queueDate e) (localDay host t)
          <-> localDay host t = utcDay t))
  /\ (Pending.field pd Pending.timeSlot = None ->
      timeSlot e = Some ""
      /\ estimatedWaitMinutes e = nmul (ofZ (position e)) (ofZ 15))
  /\ position e
     = calculatePosition (queueDatabase st) (guests e) (hall e) (segment e)
  /\ (pd = None ->
      guests e = ofZ 2 /\ hall e = "Any" /\ segment e = "Any"
      /\ timeSlot e = Some ""
      /\ position e = calculatePosition (queueDatabase st) (ofZ 2) "Any" "Any"
      /\ estimatedWaitMinutes e = nmul (ofZ (position e)) (ofZ 15)).
Proof.
  intros Hin pd t.
  pose proof (submitted_is_newEntry st clock remote e Hin) as He.
  subst e.
  assert (Hdate : Pending.field pd Pending.queueDate = None ->
                  -62167219200000 <= t < 253402300800000 ->
                  namesDay (queueDate (newEntry host st clock)) (utcDay t)).
  { intros Hnone Ht. unfold newEntry. fold pd. cbn [queueDate].
    unfold resolveQueueDate. rewrite Hnone.
    exact (toISODate_names_its_day t Ht). }
  remember (queueDate (newEntry host st clock)) as qd eqn:Eqd. clear Eqd.
  unfold newEntry. fold pd.
  cbn [notificationMethod guests hall segment timeSlot position
       estimatedWaitMinutes].
  unfold resolveGuests, resolveHall, resolveSegment, resolveTimeSlot,
    initialWaitMinutes.
  split; [reflexivity |].
  split; [intros H; rewrite H; reflexivity |].
  split; [intros H1 H2; rewrite H1, H2; reflexivity |].
  split; [intros H1 H2; rewrite H1, H2; reflexivity |].
  split.
  { intros Hnone Ht. pose proof (Hdate Hnone Ht) as Hutc.
    split; [exact Hutc |].
    unfold namesDay in *. rewrite Hutc. split.
    - intro H. inversion H. reflexivity.
    - intro H. rewrite H. reflexivity. }
  split; [intros H; rewrite H; split; reflexivity |].
  split; [reflexivity |].
  intros H. rewrite H. repeat split; reflexivity.
Qed.

(** C7. A confirmed cancellation of the current user's entry, whatever
    the remote calls do (the cancel throws, the refresh throws, or both
    succeed and the store returns a list without the cancelled id),
    leaves no entry with that id in the list; when a remote call failed
    the list keeps exactly the entries with another id, in order. In
    every case the current-user entry is cleared, the form is reset to
    empty name and contact, the staged reservation data is dropped and
    the status and form panels are hidden. *)
Theorem cancel_removes_and_clears
    (st : State) (cur : QueueEntry) (now : Z) (remote : CancelRemote) :
  currentUserEntry st = Some cur ->
  honoursCancel remote (id cur) ->
  let st' := fst (handleCancelQueue st true now remote) in
  Forall (fun e => id e <> id cur) (queueDatabase st')
  /\ (remote = CancelThrows \/ remote = RefreshThrows ->
      queueDatabase st' = withoutEntry (queueDatabase st) cur
      /\ forall e,
          In e (queueDatabase st')
          <-> In e (queueDatabase st) /\ id e <> id cur)
  /\ currentUserEntry st' = None
  /\ formData st' = Form.empty
  /\ pendingData st' = None
  /\ showStatus st' = false
  /\ showForm st' = false.
Proof.
  intros Hcur Hremote. unfold handleCancelQueue. rewrite Hcur.
  cbn [fst queueDatabase currentUserEntry formData pendingData showStatus
       showForm].
  assert (Hfilter : forall e,
             In e (withoutEntry (queueDatabase st) cur)
             <-> In e (queueDatabase st) /\ id e <> id cur).
  { intro e. unfold withoutEntry. rewrite filter_In, negb_true_iff.
    split; intros [H1 H2]; split; try assumption.
    - intro Heq. apply String.eqb_eq in Heq. congruence.
    - destruct (String.eqb (id e) (id cur)) eqn:E; [| reflexivity].
      apply String.eqb_eq in E. contradiction. }
  assert (Hgone : Forall (fun e => id e <> id cur)
                         (withoutEntry (queueDatabase st) cur)).
  { apply Forall_forall. intros e He. apply Hfilter in He. tauto. }
  split; [| split; [| repeat split]].
  - destruct remote; simpl in *; assumption.
  - intros [-> | ->]; (split; [reflexivity | exact Hfilter]).
Qed.

End Handlers.

(** ** Loading the persisted state *)

Section Loading.

Import JsString JsDate Persistence.

Variable host : Host.

(** Nothing stored: the empty list and no current entry. *)
Lemma nothing_saved (now : Z) :
  queueDatabase_init host now None = Returns []
  /\ currentUserEntry_init host None = Returns None.
Proof. split; reflexivity. Qed.

(** The list initializer always returns. *)
Lemma queueDatabase_init_returns (now : Z) (saved : option string) :
  exists entries, queueDatabase_init host now saved = Returns entries.
Proof.
  unfold queueDatabase_init.
  destruct (negb (truthyO saved)); [eexists; reflexivity |].
  destruct (JSON_parse host (orElse saved "")) as [[| | | | |] |];
    eexists; reflexivity.
Qed.

(** C9. For a stored text that [JSON.parse] refuses, the initializer of
    the queue list catches the error and returns the empty list; the
    initializer of the current-user entry has no handler and the
    [SyntaxError] leaves it. *)
Theorem unparsable_state_is_caught_for_the_list_only
    (now : Z) (s : string) :
  s <> "" ->
  JSON_parse host s = None ->
  queueDatabase_init host now (Some s) = Returns []
  /\ currentUserEntry_init host (Some s) = Throws SyntaxError.
Proof.
  intros Hs Hparse. apply truthy_true_iff in Hs.
  unfold queueDatabase_init, currentUserEntry_init.
  cbn [truthyO orElse]. rewrite Hs. cbn [negb]. rewrite Hparse.
  split; reflexivity.
Qed.

End Loading.

(* ------------------------------------------------------------------ *)
(** * Instances *)

Module Instances.

Import JsString JsNumber JsDate Queue Spec Scenario Hosts Persistence.

Example trim_ex : trim "  Asha 	" = "Asha".
Proof. reflexivity. Qed.

Example split_ex :
  splitDash "6:00 PM – 6:30 PM" = ["6:00 PM "; " 6:30 PM"].
Proof. reflexivity. Qed.

Example parseInt_ex :
  parseInt " 42 guests" = ofZ 42
  /\ parseInt "two" = NaN
  /\ parseInt "0x1f" = ofZ 31.
Proof. repeat split; reflexivity. Qed.

Example regex_ex :
  regex_match "6:00 PM" = Some ("6", "00", "PM")
  /\ regex_match "at 12:05am" = Some ("12", "05", "am")
  /\ regex_match "18:00" = None.
Proof. repeat split; reflexivity. Qed.

Example iso_ex :
  iso_date_only "2024-01-15" = Some day
  /\ toISODate (day * msPerDay) = "2024-01-15"
  /\ toISODate (-1) = "1969-12-31"
  /\ toISODate 951782400000 = "2000-02-29"
  /\ iso_date_only "2023-02-29" = None.
Proof. repeat split; reflexivity. Qed.

(** Three local joins from an empty list with nothing staged are given
    the positions 1, 2, 3. *)
Lemma three_local_joins :
  Forall (fun i => validForm (fst i)) threeInputs
  /\ reportedPositions
       (snd (localJoins kolkata (fresh None asha) threeInputs))
     = [1; 2; 3]
  /\ exists added,
      queueDatabase
        (fst (localJoins kolkata (fresh None asha) threeInputs))
      = added
      /\ map position added = [1; 2; 3].
Proof.
  assert (Hv : Forall (fun i => validForm (fst i)) threeInputs).
  { repeat constructor; simpl; discriminate. }
  split; [exact Hv |].
  exact (proj2 (position_is_count_plus_one_and_joins_are_numbered
                  kolkata (ofZ 2) "Any" "Any")
               (fresh None asha) threeInputs Hv eq_refl eq_refl eq_refl).
Defined.


(** An entry at position 1 without a slot, joined at 5:00 PM: the ticks
    at 5:05 and 5:09 are outside the window, the tick at 5:11 is inside
    it, the ticks at 5:12 and 5:14 are inside it too. *)
Lemma one_notice :
  let joined := wallClock kolkata day 17 0 in
  let e := entryWith "2024-01-15" None 1 joined in
  let pre := [joined + 5 * 60000; joined + 9 * 60000] in
  let now := joined + 11 * 60000 in
  let post := [joined + 12 * 60000; joined + 14 * 60000] in
  notifiedAt5Min e = false
  /\ Forall (fun t => ~ inNoticeWindow (newEstimatedWaitMinutes kolkata t e))
            pre
  /\ inNoticeWindow (newEstimatedWaitMinutes kolkata now e)
  /\ snd (ticks kolkata (pre ++ now :: post) (Some e))
     = [AlertTableReady None (ofZ 2)].
Proof.
  cbv zeta.
  set (joined := wallClock kolkata day 17 0).
  set (e := entryWith "2024-01-15" None 1 joined).
  assert (Hpre : Forall
                   (fun t => ~ inNoticeWindow
                                 (newEstimatedWaitMinutes kolkata t e))
                   [joined + 5 * 60000; joined + 9 * 60000]).
  { repeat constructor; vm_compute; intros [_ H]; apply H; reflexivity. }
  assert (Hnow : inNoticeWindow
                   (newEstimatedWaitMinutes kolkata (joined + 11 * 60000) e)).
  { vm_compute. split; [reflexivity | discriminate]. }
  split; [reflexivity |]. split; [exact Hpre |]. split; [exact Hnow |].
  destruct (notice_fires_once kolkata e _
              [joined + 12 * 60000; joined + 14 * 60000] _
              eq_refl Hpre Hnow)
    as [e1 [e2 [_ [_ [_ [_ [_ H]]]]]]].
  exact H.
Defined.

(** A blank name: the join is refused and the state is untouched. *)
Lemma blank_name_is_refused :
  (trim (Form.name (formData (fresh None blankName))) = ""
   \/ trim (Form.contact (formData (fresh None blankName))) = "")
  /\ exists msg,
      handleJoinQueue kolkata (fresh None blankName)
                      (clockAt 1705320000000) None
      = (fresh None blankName, [Alert msg]).
Proof.
  assert (H : trim (Form.name (formData (fresh None blankName))) = ""
              \/ trim (Form.contact (formData (fresh None blankName))) = "")
    by (left; reflexivity).
  split; [exact H |].
  exact (proj2 (join_requires_name_and_contact
                  kolkata (fresh None blankName)
                  (clockAt 1705320000000) None) H).
Defined.

(** A join in Kolkata at 1:00 AM on 16 January 2024, with the slot
    "2:00 AM – 2:30 AM" staged without a date. The entry is for 2 guests,
    any hall, any segment, by SMS, and it is dated 15 January, the day in
    UTC, where the user's calendar shows 16 January; the slot, an hour
    away, is then taken as past: the wait is 0, where the start of the
    slot of today is sixty minutes away. *)
Lemma after_midnight_in_kolkata :
  let now := wallClock kolkata (day + 1) 1 0 in
  let st := fresh (Some (stagedSlot "2:00 AM – 2:30 AM")) asha in
  let clock := clockAt now in
  let e := newEntry kolkata st clock in
  In (RemoteJoin e) (snd (handleJoinQueue kolkata st clock None))
  /\ -62167219200000 <= now < 253402300800000
  /\ notificationMethod e = sms
  /\ guests e = ofZ 2 /\ hall e = "Any" /\ segment e = "Any"
  /\ namesDay (queueDate e) (utcDay now)
  /\ ~ namesDay (queueDate e) (localDay kolkata now)
  /\ utcDay now = day /\ localDay kolkata now = day + 1
  /\ queueDate e = "2024-01-15"
  /\ namesDay "2024-01-16" (localDay kolkata now)
  /\ same (estimatedWaitMinutes e) (Num 0)
  /\ same (slotEstimate (wallClock kolkata (day + 1) 2 0) now) (Num 60).
Proof.
  cbv zeta.
  set (now := wallClock kolkata (day + 1) 1 0).
  set (st := fresh (Some (stagedSlot "2:00 AM – 2:30 AM")) asha).
  set (clock := clockAt now).
  set (e := newEntry kolkata st clock).
  assert (Hin : In (RemoteJoin e)
                   (snd (handleJoinQueue kolkata st clock None)))
    by (left; reflexivity).
  assert (Ht : -62167219200000 <= now < 253402300800000)
    by (split; [intro H; vm_compute in H; discriminate
               | vm_compute; reflexivity]).
  destruct (join_defaults_with_the_date_of_utc kolkata st clock None e Hin)
    as (Hsms & Hg & Hh & Hs & Hd & _).
  destruct (Hd eq_refl Ht) as [Hutc Hlocal].
  split; [exact Hin |]. split; [exact Ht |]. split; [exact Hsms |].
  split; [exact (Hg eq_refl) |].
  split; [exact (Hh eq_refl eq_refl) |].
  split; [exact (Hs eq_refl eq_refl) |].
  split; [exact Hutc |].
  split; [intro H; apply Hlocal in H; vm_compute in H; discriminate |].
  split; [vm_compute; reflexivity |].
  split; [vm_compute; reflexivity |].
  split; [vm_compute; reflexivity |].
  split; [vm_compute; reflexivity |].
  split; vm_compute; reflexivity.
Defined.

(** The third guest cancels while the remote store is unreachable: the
    two other entries stay and everything about the guest is cleared. *)
Lemma cancel_while_offline :
  let st := afterThreeJoins in
  let st' := fst (handleCancelQueue st true 1705320180000 CancelThrows) in
  (exists cur,
      currentUserEntry st = Some cur
      /\ honoursCancel CancelThrows (id cur)
      /\ Forall (fun e => id e <> id cur) (queueDatabase st'))
  /\ map id (queueDatabase st) =
     ["QUEUE1705320000000"; "QUEUE1705320060000"; "QUEUE1705320120000"]
  /\ map id (queueDatabase st') =
     ["QUEUE1705320000000"; "QUEUE1705320060000"]
  /\ currentUserEntry st' = None
  /\ formData st' = Form.empty
  /\ pendingData st' = None.
Proof.
  cbv zeta.
  set (cur := newEntry kolkata
                (setFormData
                   (fst (localJoins kolkata (fresh None asha)
                           [(asha, clockAt 1705320000000);
                            (ravi, clockAt 1705320060000)]))
                   meena)
                (clockAt 1705320120000)).
  assert (Hcur : currentUserEntry afterThreeJoins = Some cur)
    by reflexivity.
  destruct (cancel_removes_and_clears
              afterThreeJoins cur 1705320180000 CancelThrows Hcur I)
    as [Hgone [_ [Hc [Hf [Hp _]]]]].
  split; [exists cur; repeat split; assumption |].
  split; [reflexivity |].
  split; [reflexivity |].
  repeat split; assumption.
Defined.

(** The text "{" is not JSON: the list loads empty, the current-user
    entry does not load at all. *)
Lemma open_brace_is_not_json :
  "{" <> ""
  /\ JSON_parse kolkata "{" = None
  /\ queueDatabase_init kolkata 1705320000000 (Some "{") = Returns []
  /\ currentUserEntry_init kolkata (Some "{") = Throws SyntaxError.
Proof.
  assert (H1 : "{" <> "") by discriminate.
  assert (H2 : JSON_parse kolkata "{" = None) by reflexivity.
  split; [exact H1 |]. split; [exact H2 |].
  exact (unparsable_state_is_caught_for_the_list_only
           kolkata 1705320000000 "{" H1 H2).
Defined.

End Instances.

(* ------------------------------------------------------------------ *)
(** * Further properties *)

(** ** The wait figure *)

Section WaitFigure.

Import JsString JsNumber JsDate Queue Display Reference.

Variable String_other : Q -> string.

Ltac digit_arith :=
  repeat match goal with
         | |- context [digit_val ?c] =>
             let v := eval vm_compute in (digit_val c) in
             change (digit_val c) with v
         end;
  lia.

Lemma dec_value_uint_acc (d : Decimal.uint) :
  forall p : positive,
    dec_value (Z.pos p) (NilEmpty.string_of_uint d)
    = Z.pos (Pos.of_uint_acc d p).
Proof.
  induction d; intro p; cbn [NilEmpty.string_of_uint dec_value Pos.of_uint_acc];
    try reflexivity;
    match goal with
    | |- dec_value ?a _ = _ =>
        match goal with
        | |- _ = Z.pos (Pos.of_uint_acc _ ?b) =>
            replace a with (Z.pos b) by digit_arith
        end
    end; apply IHd.
Qed.

Lemma dec_value_uint (d : Decimal.uint) :
  dec_value 0 (NilEmpty.string_of_uint d) = Z.of_uint d.
Proof.
  unfold Z.of_uint.
  induction d; cbn [NilEmpty.string_of_uint dec_value Pos.of_uint];
    try reflexivity;
    try (match goal with
         | |- dec_value ?a _ = Z.of_N (N.pos (Pos.of_uint_acc _ ?b)) =>
             replace a with (Z.pos b) by digit_arith
         end; apply dec_value_uint_acc).
  replace (10 * 0 + digit_val "0") with 0
    by digit_arith.
  exact IHd.
Qed.

(** The decimal digits of a non-negative integer read back as it. *)
Lemma decimal_reads_back (z : Z) :
  0 <= z -> dec_value 0 (NilZero.string_of_int (Z.to_int z)) = z.
Proof.
  intro Hz.
  pose proof (DecimalZ.of_to z) as Hof.
  destruct (Z.to_int z) as [d | d] eqn:E.
  - cbn [NilZero.string_of_int]. cbn [Z.of_int] in Hof.
    unfold NilZero.string_of_uint.
    destruct d; try (rewrite <- Hof; apply dec_value_uint).
    rewrite <- Hof. reflexivity.
  - exfalso. destruct z; simpl in E; try discriminate. lia.
Qed.














End WaitFigure.

(** ** The status panel and the notice *)

Section StatusPanel.

Import JsString JsNumber JsDate Queue Display Reference Spec.

Variable host : Host.
Variable String_other : Q -> string.

Lemma nle_zero_false_of_window (w : number) :
  inNoticeWindow w -> nle w (ofZ 0) = false /\ nle w (ofZ 5) = true.
Proof.
  destruct w as [q |]; simpl; [| tauto].
  intros [H0 H5]. split.
  - destruct (Qle_bool q (inject_Z 0)) eqn:E; [| reflexivity].
    apply Qle_bool_iff in E. exfalso. apply (Qlt_not_le _ _ H0). exact E.
  - apply Qle_bool_iff. exact H5.
Qed.

(** X3. The wait figure is yellow exactly when the wait is in the window
    (0, 5] that raises the notice, and green exactly when the wait is a
    number not above zero; at a tick that raises the notice the entry it
    leaves is shown in yellow, with a countdown caption and not as
    ready. *)
Theorem wait_class_follows_notice_window :
  (forall w,
      (waitClass w = "text-6xl mb-2 text-yellow-300" <-> inNoticeWindow w)
      /\ (waitClass w = "text-6xl mb-2 text-green-300"
          <-> atMostZero w))
  /\ (forall now e e' fx,
         tickEntry host now e = (e', fx) ->
         fx <> [] ->
         waitClass (estimatedWaitMinutes e')
         = "text-6xl mb-2 text-yellow-300"
         /\ waitCaption e'
            <> "🍽️ Your table is ready! Please head to the restaurant.").
Proof.
  assert (Hclass : forall w,
             (waitClass w = "text-6xl mb-2 text-yellow-300"
              <-> inNoticeWindow w)
             /\ (waitClass w = "text-6xl mb-2 text-green-300"
                 <-> atMostZero w)).
  { intro w. unfold waitClass.
    destruct w as [q |]; cbn [nle ofZ atMostZero inNoticeWindow].
    - destruct (Qle_bool q (inject_Z 0)) eqn:E0.
      + apply Qle_bool_iff in E0. split; split; intro H.
        * discriminate.
        * exfalso. destruct H as [H _].
          apply (Qlt_not_le _ _ H). exact E0.
        * unfold inject_Z in *. lra.
        * reflexivity.
      + assert (H0 : (0 < q)%Q).
        { apply Qnot_le_lt. intro H. apply Qle_bool_iff in H.
          unfold inject_Z in E0. congruence. }
        destruct (Qle_bool q (inject_Z 5)) eqn:E5.
        * apply Qle_bool_iff in E5. split; split; intro H.
          -- split; assumption.
          -- reflexivity.
          -- discriminate.
          -- exfalso. unfold inject_Z in *. lra.
        * split; split; intro H.
          -- discriminate.
          -- exfalso. destruct H as [_ H]. apply Qle_bool_iff in H.
             unfold inject_Z in E5. congruence.
          -- discriminate.
          -- exfalso. unfold inject_Z in *. lra.
    - split; split; intro H; try discriminate; contradiction. }
  split; [exact Hclass |].
  intros now e e' fx Htick Hfx. unfold tickEntry in Htick.
  destruct (nle (newEstimatedWaitMinutes host now e) (ofZ 5)
            && ngt (newEstimatedWaitMinutes host now e) (ofZ 0)
            && negb (notifiedAt5Min e)) eqn:E.
  - injection Htick as <- <-.
    apply andb_true_iff in E. destruct E as [E _].
    apply window_test_iff in E.
    cbn [withWait estimatedWaitMinutes]. split.
    + apply Hclass. exact E.
    + unfold waitCaption. cbn [withWait estimatedWaitMinutes timeSlot].
      destruct (nle_zero_false_of_window _ E) as [H0 _]. rewrite H0.
      destruct (truthyO (timeSlot e)); discriminate.
  - injection Htick as <- <-. exfalso. apply Hfx. reflexivity.
Qed.

(** X4. When the slot of the entry parses to a start that is an Invalid
    Date, every tick leaves a wait that the panel shows as NaN:NaN:NaN, in
    neither green nor yellow, under the caption that counts down to the
    slot; the notice is not raised. *)
Theorem invalid_start_is_shown_as_NaN
    (now : Z) (e : QueueEntry) (slot : string) (stop : Date) :
  timeSlot e = Some slot ->
  truthy slot = true ->
  truthy (queueDate e) = true ->
  parseSlotTimes host (queueDate e) slot = Some (None, stop) ->
  let e' := fst (tickEntry host now e) in
  formatWaitTime String_other (estimatedWaitMinutes e') = "NaN:NaN:NaN"
  /\ waitClass (estimatedWaitMinutes e') = "text-6xl mb-2 "
  /\ waitCaption e' = "⏱ Counting down to slot: " ++ slot
  /\ snd (tickEntry host now e) = []
  /\ notifiedAt5Min e' = notifiedAt5Min e.
Proof.
  intros Hs Ht Hd Hp.
  assert (Hw : newEstimatedWaitMinutes host now e = NaN).
  { unfold newEstimatedWaitMinutes. rewrite Hs. cbn [truthyO orElse].
    rewrite Ht, Hd. cbn [andb]. rewrite Hp. reflexivity. }
  unfold tickEntry. rewrite Hw. cbn [nle ngt andb fst snd].
  cbn [withWait estimatedWaitMinutes notifiedAt5Min].
  repeat split.
  unfold waitCaption. cbn [withWait estimatedWaitMinutes timeSlot nle].
  rewrite Hs. cbn [truthyO orElse]. rewrite Ht. reflexivity.
Qed.

End StatusPanel.

(** ** The wait over time *)

Section WaitOverTime.

Import JsString JsNumber JsDate Queue Reference Spec.

Variable host : Host.

Lemma same_refl (a : number) : same a a.
Proof. destruct a; simpl; [reflexivity | exact I]. Qed.

Lemma same_sym (a b : number) : same a b -> same b a.
Proof. destruct a, b; simpl; try tauto. intro H. symmetry. exact H. Qed.

(** [max(0, .)] does not fall faster than its argument. *)
Lemma max0_step (A B : Q) :
  (B <= A)%Q ->
  (Qmax 0 B <= Qmax 0 A)%Q /\ (Qmax 0 A - Qmax 0 B <= A - B)%Q.
Proof.
  intro H.
  destruct (Q.max_spec 0 A) as [[HA EA] | [HA EA]];
    destruct (Q.max_spec 0 B) as [[HB EB] | [HB EB]];
    rewrite EA, EB; split; lra.
Qed.

Lemma minutes_between (c t1 t2 : Z) :
  t1 <= t2 ->
  (inject_Z (c - t2) / 60000 <= inject_Z (c - t1) / 60000)%Q
  /\ (inject_Z (c - t1) / 60000 - inject_Z (c - t2) / 60000
      == inject_Z (t2 - t1) / 60000)%Q.
Proof.
  intro H. split.
  - unfold Qle, Qdiv, Qmult, Qinv, inject_Z. simpl. lia.
  - unfold Qeq, Qminus, Qplus, Qopp, Qdiv, Qmult, Qinv, inject_Z. simpl.
    lia.
Qed.

Lemma waitStep_same (t1 t2 : Z) (w1 w2 v1 v2 : number) :
  same w1 v1 -> same w2 v2 -> waitStep t1 t2 v1 v2 -> waitStep t1 t2 w1 w2.
Proof.
  destruct w1, w2, v1, v2; simpl; try tauto.
  intros H1 H2 [Ha Hb]. rewrite H1, H2. split; assumption.
Qed.

Lemma positionEstimate_step (pos joined t1 t2 : Z) :
  t1 <= t2 ->
  waitStep t1 t2 (positionEstimate pos joined t1)
           (positionEstimate pos joined t2).
Proof.
  intro H. unfold positionEstimate, max0, waitStep.
  assert (Hm : (inject_Z (t1 - joined) / 60000
                <= inject_Z (t2 - joined) / 60000)%Q
               /\ (inject_Z (t2 - joined) / 60000
                   - inject_Z (t1 - joined) / 60000
                   == inject_Z (t2 - t1) / 60000)%Q).
  { split.
    - unfold Qle, Qdiv, Qmult, Qinv, inject_Z. simpl. lia.
    - unfold Qeq, Qminus, Qplus, Qopp, Qdiv, Qmult, Qinv, inject_Z. simpl.
      lia. }
  destruct Hm as [Hle Heq].
  destruct (max0_step (inject_Z pos * 15 - inject_Z (t1 - joined) / 60000)
                      (inject_Z pos * 15 - inject_Z (t2 - joined) / 60000))
    as [H1 H2]; [lra |].
  split; [exact H1 |]. lra.
Qed.

Lemma slotEstimate_step (start t1 t2 : Z) :
  t1 <= t2 ->
  waitStep t1 t2 (slotEstimate start t1) (slotEstimate start t2).
Proof.
  intro H. unfold slotEstimate, max0, waitStep.
  destruct (minutes_between start t1 t2 H) as [Hle Heq].
  destruct (max0_step (inject_Z (start - t1) / 60000)
                      (inject_Z (start - t2) / 60000) Hle) as [H1 H2].
  split; [exact H1 |]. lra.
Qed.

Lemma newEstimatedWaitMinutes_step (e : QueueEntry) (t1 t2 : Z) :
  t1 <= t2 ->
  waitStep t1 t2 (newEstimatedWaitMinutes host t1 e)
           (newEstimatedWaitMinutes host t2 e).
Proof.
  intro H. unfold newEstimatedWaitMinutes.
  destruct (truthyO (timeSlot e) && truthy (queueDate e)).
  - destruct (parseSlotTimes host (queueDate e) (orElse (timeSlot e) ""))
      as [[[start |] stop] |].
    + eapply waitStep_same;
        [apply slotWait_valid | apply slotWait_valid |].
      apply slotEstimate_step. exact H.
    + exact I.
    + simpl. split; [apply Qle_refl |].
      unfold Qle, Qminus, Qplus, Qopp, Qdiv, Qmult, Qinv, inject_Z. simpl.
      lia.
  - eapply waitStep_same;
      [apply positionWait_same | apply positionWait_same |].
    apply positionEstimate_step. exact H.
Qed.

(** X5. While the clock moves forward the wait of an entry never goes up:
    a later tick computes a wait that is not larger (and is not a number
    exactly when the earlier one is not). *)
Theorem wait_never_increases (e : QueueEntry) (t1 t2 : Z) :
  t1 <= t2 ->
  noMore (newEstimatedWaitMinutes host t2 e)
         (newEstimatedWaitMinutes host t1 e).
Proof.
  intro H. pose proof (newEstimatedWaitMinutes_step e t1 t2 H) as Hs.
  unfold waitStep in Hs. unfold noMore.
  destruct (newEstimatedWaitMinutes host t1 e),
           (newEstimatedWaitMinutes host t2 e); try tauto.
Qed.

Lemma max0_zero_iff (A : Q) : (Qmax 0 A == 0)%Q <-> (A <= 0)%Q.
Proof.
  destruct (Q.max_spec 0 A) as [[HA EA] | [HA EA]]; rewrite EA;
    split; intro H; lra.
Qed.

(** X6. The wait of an entry without a slot is zero exactly from the
    instant [position x 15] minutes after the join; the wait of an entry
    whose slot parses to the start [start] is zero exactly from that
    start on. *)
Theorem wait_is_zero_from_the_deadline (e : QueueEntry) (now : Z) :
  (timeSlot e = None \/ timeSlot e = Some "" ->
   (same (newEstimatedWaitMinutes host now e) (Num 0)
    <-> joinedAt e + position e * (15 * 60000) <= now))
  /\ (forall slot start stop,
         timeSlot e = Some slot ->
         truthy slot = true ->
         truthy (queueDate e) = true ->
         parseSlotTimes host (queueDate e) slot
         = Some (Some start, stop) ->
         (same (newEstimatedWaitMinutes host now e) (Num 0)
          <-> start <= now)).
Proof.
  split.
  - intro Hslot.
    assert (Hw : newEstimatedWaitMinutes host now e
                 = positionWait (position e) (joinedAt e) now).
    { unfold newEstimatedWaitMinutes.
      rewrite (noSlot_falsy _ Hslot). reflexivity. }
    rewrite Hw.
    pose proof (positionWait_same (position e) (joinedAt e) now) as Hsame.
    assert (Hz : same (positionEstimate (position e) (joinedAt e) now)
                      (Num 0)
                 <-> joinedAt e + position e * (15 * 60000) <= now).
    { unfold positionEstimate, max0, same. rewrite max0_zero_iff.
      unfold Qle, Qminus, Qplus, Qopp, Qdiv, Qmult, Qinv, inject_Z.
      simpl. lia. }
    rewrite <- Hz. split; intro H.
    + eapply same_trans; [apply same_sym; exact Hsame | exact H].
    + eapply same_trans; [exact Hsame | exact H].
  - intros slot start stop Hs Ht Hd Hp.
    pose proof (newEstimatedWaitMinutes_parsed_slot host now e slot start
                  stop Hs Ht Hd Hp) as Hsame.
    assert (Hz : same (slotEstimate start now) (Num 0) <-> start <= now).
    { unfold slotEstimate, max0, same. rewrite max0_zero_iff.
      unfold Qle, Qdiv, Qmult, Qinv, inject_Z. simpl. lia. }
    rewrite <- Hz. split; intro H.
    + eapply same_trans; [apply same_sym; exact Hsame | exact H].
    + eapply same_trans; [exact Hsame | exact H].
Qed.

End WaitOverTime.

(** ** The notice under regular ticks *)

Section NoticeInTime.

Import JsString JsNumber JsDate Queue Reference Spec.

Variable host : Host.

Lemma aboveFive_not_in_window (w : number) :
  aboveFive w -> ~ inNoticeWindow w.
Proof.
  destruct w as [q |]; simpl; [| tauto].
  intros H [_ H5]. apply (Qlt_not_le _ _ H). exact H5.
Qed.

(** A run of ticks that are outside the window, then one inside it, then
    any others: one alert in all. *)
Lemma ticks_single_alert (e : QueueEntry) (pre post : list Z) (now : Z) :
  notifiedAt5Min e = false ->
  Forall (fun t => ~ inNoticeWindow (newEstimatedWaitMinutes host t e))
         pre ->
  inNoticeWindow (newEstimatedWaitMinutes host now e) ->
  snd (ticks host (pre ++ now :: post) (Some e))
  = [AlertTableReady (tableName e) (guests e)].
Proof.
  intros Hf Hpre Hnow.
  destruct (ticks_before_notice host pre e Hf Hpre) as [w1 H1].
  rewrite ticks_app, H1. cbn [fst snd app ticks tick].
  rewrite (tickEntry_in_window host now (withWait e w1 false) eq_refl Hnow).
  destruct (ticks_after_notice host post
              (withWait (withWait e w1 false)
                 (newEstimatedWaitMinutes host now (withWait e w1 false))
                 true) eq_refl) as [w3 H3].
  rewrite H3. reflexivity.
Qed.

(** With readings at most five minutes apart, the first reading at which
    the wait is five minutes or less still has time left. *)
Lemma first_reading_in_window (e : QueueEntry) (ts : list Z) :
  forall prev,
    paced (5 * 60000) prev ts ->
    aboveFive (newEstimatedWaitMinutes host prev e) ->
    Exists (fun t => fiveOrLess (newEstimatedWaitMinutes host t e)) ts ->
    exists pre now post,
      ts = (pre ++ now :: post)%list
      /\ Forall (fun t => aboveFive (newEstimatedWaitMinutes host t e)) pre
      /\ inNoticeWindow (newEstimatedWaitMinutes host now e).
Proof.
  induction ts as [| t rest IH]; intros prev Hp Habove Hex.
  - inversion Hex.
  - destruct Hp as [[Hle Hgap] Hrest].
    pose proof (newEstimatedWaitMinutes_step host e prev t Hle) as Hstep.
    unfold waitStep in Hstep.
    destruct (newEstimatedWaitMinutes host prev e) as [a |] eqn:Ea;
      [| contradiction].
    destruct (newEstimatedWaitMinutes host t e) as [b |] eqn:Eb;
      [| contradiction].
    destruct Hstep as [Hba Hdrop]. simpl in Habove.
    assert (Hfive : (inject_Z (t - prev) / 60000 <= 5)%Q).
    { unfold Qle, Qdiv, Qmult, Qinv, inject_Z. simpl. lia. }
    destruct (Qlt_le_dec 5 b) as [Hb | Hb].
    + assert (Hex' : Exists
                       (fun t => fiveOrLess (newEstimatedWaitMinutes host t e))
                       rest).
      { inversion Hex as [x l H | x l H]; subst; [| exact H].
        rewrite Eb in H. simpl in H. exfalso.
        apply (Qlt_not_le _ _ Hb). exact H. }
      assert (Ha' : aboveFive (newEstimatedWaitMinutes host t e))
        by (rewrite Eb; exact Hb).
      destruct (IH t Hrest Ha' Hex') as [pre [now [post [E [Hpre Hnow]]]]].
      exists (t :: pre), now, post. split; [| split].
      * rewrite E. reflexivity.
      * constructor; [rewrite Eb; exact Hb | exact Hpre].
      * exact Hnow.
    + exists [], t, rest. split; [reflexivity |]. split; [constructor |].
      rewrite Eb. simpl. split; [lra | exact Hb].
Qed.

(** X7. The notice is not skipped when ticks are at most five minutes
    apart: take an entry whose flag is down and whose wait is above five
    minutes at a first tick, and later ticks in order, each at most five
    minutes after the one before; if the wait is five minutes or less at
    one of them (zero included), the run has raised the alert, once. *)
Theorem notice_is_not_skipped (e : QueueEntry) (t0 : Z) (ts : list Z) :
  notifiedAt5Min e = false ->
  paced (5 * 60000) t0 ts ->
  aboveFive (newEstimatedWaitMinutes host t0 e) ->
  Exists (fun t => fiveOrLess (newEstimatedWaitMinutes host t e)) ts ->
  snd (ticks host (t0 :: ts) (Some e))
  = [AlertTableReady (tableName e) (guests e)].
Proof.
  intros Hf Hp Habove Hex.
  destruct (first_reading_in_window e ts t0 Hp Habove Hex)
    as [pre [now [post [E [Hpre Hnow]]]]].
  rewrite E.
  change (t0 :: pre ++ now :: post)%list
    with ((t0 :: pre) ++ now :: post)%list.
  apply ticks_single_alert; [exact Hf | | exact Hnow].
  constructor.
  - apply aboveFive_not_in_window. exact Habove.
  - eapply Forall_impl; [| exact Hpre].
    intros t Ht. apply aboveFive_not_in_window. exact Ht.
Qed.

Lemma truthy_append_char (a b : string) (c : ascii) :
  truthy (a ++ String c b) = true.
Proof. destruct a; reflexivity. Qed.

Lemma toISODate_truthy (t : Z) : truthy (toISODate t) = true.
Proof.
  unfold toISODate.
  destruct (civil_from_days (t / msPerDay)) as [[y m] d].
  apply truthy_append_char.
Qed.

Lemma resolveQueueDate_truthy pd (t : Z) :
  truthy (resolveQueueDate pd t) = true.
Proof.
  unfold resolveQueueDate, orElse.
  destruct (Pending.field pd Pending.queueDate) as [s |];
    [destruct (truthy s) eqn:E; [exact E |] |]; apply toISODate_truthy.
Qed.

(** X8. A tick at the very instant of the join computes the wait the
    entry was given at join, whenever the staged slot is empty or parses:
    the two computations agree at the start. *)
Theorem first_tick_agrees_with_join (st : State) (clock : JoinClock) :
  let e := newEntry host st clock in
  resolveTimeSlot (pendingData st) = ""
  \/ parseSlotTimes host (queueDate e) (resolveTimeSlot (pendingData st))
     <> None ->
  same (newEstimatedWaitMinutes host (atPress clock) e)
       (estimatedWaitMinutes e).
Proof.
  intros e Hslot. subst e. unfold newEstimatedWaitMinutes, newEntry in *.
  cbn [timeSlot queueDate position joinedAt estimatedWaitMinutes] in *.
  unfold initialWaitMinutes. cbn [truthyO orElse].
  rewrite resolveQueueDate_truthy, andb_true_r.
  destruct (truthy (resolveTimeSlot (pendingData st))) eqn:Et.
  - destruct Hslot as [Hs | Hs];
      [rewrite Hs in Et; discriminate |].
    destruct (parseSlotTimes host
                (resolveQueueDate (pendingData st) (atDate clock))
                (resolveTimeSlot (pendingData st))) as [[start stop] |];
      [apply same_refl | contradiction].
  - eapply same_trans; [apply positionWait_same |].
    unfold positionEstimate, max0, same.
    rewrite Z.sub_diag.
    pose proof (calculatePosition_positive (queueDatabase st)
                  (resolveGuests (pendingData st))
                  (resolveHall (pendingData st))
                  (resolveSegment (pendingData st))) as Hpos.
    cbn [nmul ofZ].
    rewrite Q.max_r.
    + unfold Qeq, Qminus, Qplus, Qopp, Qdiv, Qmult, Qinv, inject_Z.
      simpl. lia.
    + unfold Qle, Qminus, Qplus, Qopp, Qdiv, Qmult, Qinv, inject_Z.
      simpl. lia.
Qed.

End NoticeInTime.

(** ** Joining and cancelling, together *)

Section JoinAndCancel.

Import JsString JsNumber JsDate Queue Reference Spec Lifecycle.

Variable host : Host.

Lemma withoutEntry_fresh (db : list QueueEntry) (cur : QueueEntry) :
  freshId (id cur) db -> withoutEntry db cur = db.
Proof.
  unfold freshId, withoutEntry.
  induction db as [| e db IH]; intro H; simpl; [reflexivity |].
  pose proof (Forall_inv H) as He. pose proof (Forall_inv_tail H) as Hdb.
  destruct (String.eqb (id e) (id cur)) eqn:E.
  - apply String.eqb_eq in E. contradiction.
  - simpl. rewrite (IH Hdb). reflexivity.
Qed.

Lemma withoutEntry_app (db1 db2 : list QueueEntry) (cur : QueueEntry) :
  withoutEntry (db1 ++ db2) cur
  = (withoutEntry db1 cur ++ withoutEntry db2 cur)%list.
Proof. unfold withoutEntry. apply filter_app. Qed.

Lemma withoutEntry_self (cur : QueueEntry) : withoutEntry [cur] cur = [].
Proof. unfold withoutEntry. simpl. rewrite String.eqb_refl. reflexivity. Qed.

(** The entry a join adopts: the one the server returned, or the one
    built locally when the call failed. *)
Lemma handleJoinQueue_adopts st clock remote :
  validForm (formData st) ->
  let adopted :=
    match remote with
    | Some created => created
    | None => newEntry host st clock
    end in
  fst (handleJoinQueue host st clock remote) = joined st adopted
  /\ snd (handleJoinQueue host st clock remote)
     = [RemoteJoin (newEntry host st clock);
        OnJoinQueue (position adopted);
        RemoveItem "pendingQueueData"].
Proof.
  intros Hv adopted.
  rewrite (handleJoinQueue_accepted host st clock remote Hv).
  destruct remote; split; reflexivity.
Qed.

(** X9. A join followed by a cancellation while the remote store cannot be
    reached gives back the list of before the join, provided no entry of
    that list carries the id of the adopted entry; the guest is no longer
    current, the form is empty and the staged reservation data is gone. *)
Theorem join_then_offline_cancel_restores_the_list
    (st : State) (clock : JoinClock) (remote : option QueueEntry)
    (now : Z) (cancelRemote : CancelRemote) :
  validForm (formData st) ->
  freshId (id match remote with
              | Some created => created
              | None => newEntry host st clock
              end) (queueDatabase st) ->
  cancelRemote = CancelThrows \/ cancelRemote = RefreshThrows ->
  let st1 := fst (handleJoinQueue host st clock remote) in
  let st2 := fst (handleCancelQueue st1 true now cancelRemote) in
  queueDatabase st2 = queueDatabase st
  /\ currentUserEntry st2 = None
  /\ formData st2 = Form.empty
  /\ pendingData st2 = None.
Proof.
  intros Hv Hfresh Hoff st1 st2.
  destruct (handleJoinQueue_adopts st clock remote Hv) as [H1 _].
  subst st2 st1. rewrite H1.
  unfold handleCancelQueue, joined.
  cbn [currentUserEntry queueDatabase fst].
  assert (Hlist : withoutEntry
                    (queueDatabase st
                     ++ [match remote with
                         | Some created => created
                         | None => newEntry host st clock
                         end])
                    match remote with
                    | Some created => created
                    | None => newEntry host st clock
                    end
                  = queueDatabase st).
  { rewrite withoutEntry_app, withoutEntry_self, app_nil_r.
    apply withoutEntry_fresh. exact Hfresh. }
  destruct Hoff as [-> | ->];
    cbn [fst queueDatabase currentUserEntry formData pendingData];
    rewrite Hlist; repeat split.
Qed.

(** X10. After a confirmed cancellation, whatever the remote calls did, the
    next join no longer uses the staged reservation: the entry it submits
    is for 2 guests, any hall, any segment, the default date, no slot and
    no table, with the position-based wait. *)
Theorem rejoin_after_cancel_is_unstaged
    (st : State) (cur : QueueEntry) (now : Z) (cancelRemote : CancelRemote)
    (n c : string) (clock : JoinClock) (remote : option QueueEntry)
    (e : QueueEntry) :
  currentUserEntry st = Some cur ->
  let st1 := fst (handleCancelQueue st true now cancelRemote) in
  let st2 := typeContact (typeName st1 n) c in
  In (RemoteJoin e) (snd (handleJoinQueue host st2 clock remote)) ->
  guests e = ofZ 2 /\ hall e = "Any" /\ segment e = "Any"
  /\ queueDate e = resolveQueueDate None (atDate clock)
  /\ timeSlot e = Some ""
  /\ tableName e = None /\ tableId e = None /\ tableLocation e = None
  /\ tableSegment e = None /\ tableCapacity e = None
  /\ name e = n /\ contact e = c
  /\ estimatedWaitMinutes e = nmul (ofZ (position e)) (ofZ 15).
Proof.
  intros Hcur st1 st2 Hin.
  assert (Hpd : pendingData st2 = None).
  { subst st2 st1. unfold handleCancelQueue. rewrite Hcur. reflexivity. }
  assert (Hform : formData st2 = {| Form.name := n; Form.contact := c |})
    by reflexivity.
  pose proof (submitted_is_newEntry host st2 clock remote e Hin) as He.
  rewrite He. unfold newEntry. rewrite Hpd, Hform.
  repeat split.
Qed.

(** Ids are the text QUEUE followed by the digits of the clock reading:
    two readings give the same id only when they are the same. *)
Lemma id_of_reading_injective st st' (c1 c2 : JoinClock) :
  0 <= atId c1 -> 0 <= atId c2 ->
  id (newEntry host st c1) = id (newEntry host st' c2) ->
  atId c1 = atId c2.
Proof.
  intros H1 H2 Hid. unfold newEntry in Hid. cbn [id] in Hid.
  injection Hid as Hd.
  rewrite <- (decimal_reads_back (atId c1) H1).
  rewrite <- (decimal_reads_back (atId c2) H2).
  rewrite Hd. reflexivity.
Qed.

(** X11. Two local joins, then the second guest cancels while the remote
    store cannot be reached. When the two ids were taken at different
    clock readings the first guest's entry stays, alone after the entries
    of before; when they were taken in the same millisecond the two
    entries share their id and the cancellation removes both. *)
Theorem same_millisecond_entries_are_cancelled_together
    (st : State) (n1 c1 n2 c2 : string) (k1 k2 : JoinClock) (now : Z) :
  let st1 := typeContact (typeName st n1) c1 in
  let e1 := newEntry host st1 k1 in
  let st2 := typeContact (typeName (fst (handleJoinQueue host st1 k1 None))
                                   n2) c2 in
  let e2 := newEntry host st2 k2 in
  let st3 := fst (handleJoinQueue host st2 k2 None) in
  let st4 := fst (handleCancelQueue st3 true now CancelThrows) in
  validForm (formData st1) ->
  validForm (formData st2) ->
  0 <= atId k1 -> 0 <= atId k2 ->
  freshId (id e2) (queueDatabase st) ->
  queueDatabase st4
  = if atId k1 =? atId k2 then queueDatabase st
    else (queueDatabase st ++ [e1])%list.
Proof.
  intros st1 e1 st2 e2 st3 st4 Hv1 Hv2 Hk1 Hk2 Hfresh.
  assert (H1 : fst (handleJoinQueue host st1 k1 None) = joined st1 e1).
  { unfold e1. rewrite (handleJoinQueue_accepted host st1 k1 None Hv1).
    reflexivity. }
  assert (H3 : st3 = joined st2 e2).
  { unfold st3, e2. rewrite (handleJoinQueue_accepted host st2 k2 None Hv2).
    reflexivity. }
  assert (Hdb2 : queueDatabase st2 = (queueDatabase st ++ [e1])%list).
  { unfold st2. cbn [typeContact typeName queueDatabase].
    rewrite H1. reflexivity. }
  unfold st4. rewrite H3. unfold handleCancelQueue, joined.
  cbn [currentUserEntry queueDatabase fst]. rewrite Hdb2.
  rewrite !withoutEntry_app, withoutEntry_self, app_nil_r.
  rewrite (withoutEntry_fresh _ _ Hfresh).
  unfold withoutEntry. cbn [filter].
  destruct (atId k1 =? atId k2) eqn:E.
  - apply Z.eqb_eq in E.
    assert (Hid : id e1 = id e2).
    { unfold e1, e2, newEntry. cbn [id]. rewrite E. reflexivity. }
    rewrite Hid, String.eqb_refl. cbn [negb]. apply app_nil_r.
  - apply Z.eqb_neq in E.
    destruct (String.eqb (id e1) (id e2)) eqn:Eid; [| reflexivity].
    apply String.eqb_eq in Eid. exfalso. apply E.
    exact (id_of_reading_injective st1 st2 k1 k2 Hk1 Hk2 Eid).
Qed.

Lemma countSameTriple_perm g h s (db db' : list QueueEntry) :
  Permutation db db' -> countSameTriple g h s db = countSameTriple g h s db'.
Proof.
  induction 1; simpl.
  - reflexivity.
  - destruct (sharesTriple_dec g h s x); rewrite IHPermutation; reflexivity.
  - destruct (sharesTriple_dec g h s x), (sharesTriple_dec g h s y);
      reflexivity.
  - rewrite IHPermutation1. exact IHPermutation2.
Qed.

Lemma countSameTriple_none g h s (db : list QueueEntry) :
  Forall (fun e => ~ sharesTriple g h s e) db ->
  countSameTriple g h s db = 0%nat.
Proof.
  induction db as [| e db IH]; intro H; simpl; [reflexivity |].
  pose proof (Forall_inv H) as He. pose proof (Forall_inv_tail H) as Hdb.
  destruct (sharesTriple_dec g h s e); [contradiction | exact (IH Hdb)].
Qed.

Lemma countSameTriple_le g h s (db : list QueueEntry) :
  (countSameTriple g h s db <= length db)%nat.
Proof.
  induction db as [| e db IH]; simpl; [lia |].
  destruct (sharesTriple_dec g h s e); lia.
Qed.

(** X12. A position lies between 1 and the length of the list plus one, it
    does not depend on the order of the list, and entries of other
    triples, wherever they stand, do not change it. *)
Theorem position_depends_on_the_triple_only (g : number) (h s : string) :
  (forall db,
      1 <= calculatePosition db g h s <= Z.of_nat (length db) + 1)
  /\ (forall db db',
         Permutation db db' ->
         calculatePosition db g h s = calculatePosition db' g h s)
  /\ (forall db1 others db2,
         Forall (fun e => ~ sharesTriple g h s e) others ->
         calculatePosition (db1 ++ others ++ db2) g h s
         = calculatePosition (db1 ++ db2) g h s).
Proof.
  split; [| split].
  - intro db. rewrite calculatePosition_count.
    pose proof (countSameTriple_le g h s db). lia.
  - intros db db' Hp. rewrite !calculatePosition_count.
    rewrite (countSameTriple_perm g h s db db' Hp). reflexivity.
  - intros db1 others db2 Ho. rewrite !calculatePosition_count.
    rewrite !countSameTriple_app, (countSameTriple_none g h s others Ho).
    reflexivity.
Qed.

End JoinAndCancel.

(** ** Ticks, effects and panels *)

Section Visit.

Import JsString JsNumber JsDate Queue Reference Spec Lifecycle.

Variable host : Host.

Lemma tickEntry_id (now : Z) (e : QueueEntry) :
  id (fst (tickEntry host now e)) = id e.
Proof.
  unfold tickEntry.
  destruct (nle (newEstimatedWaitMinutes host now e) (ofZ 5)
            && ngt (newEstimatedWaitMinutes host now e) (ofZ 0)
            && negb (notifiedAt5Min e)); reflexivity.
Qed.

Lemma tickState_current (now : Z) (st : State) (e : QueueEntry) :
  currentUserEntry st = Some e ->
  fst (fst (tickState host now st))
  = withPanels (withCurrent st (Some (fst (tickEntry host now e))))
               true true
  /\ snd (fst (tickState host now st)) = snd (tickEntry host now e).
Proof.
  intro Hcur. unfold tickState. rewrite Hcur.
  destruct (tickEntry host now e) as [e' fx]. split; reflexivity.
Qed.

(** X13. While a guest is in the queue every tick brings the status panel
    back: whatever the panels were, and in particular right after
    [handleBackToHero] has hidden them, the state after the tick shows the
    form section with the status panel, and the list, the form and the
    staged data are as before the tick. *)
Theorem tick_brings_the_status_panel_back
    (st : State) (e : QueueEntry) (now : Z) :
  currentUserEntry st = Some e ->
  let st' := fst (fst (tickState host now (handleBackToHero st))) in
  showStatus st' = true /\ showForm st' = true
  /\ showStatus (fst (fst (tickState host now st))) = true
  /\ queueDatabase st' = queueDatabase st
  /\ formData st' = formData st
  /\ pendingData st' = pendingData st.
Proof.
  intros Hcur st'.
  assert (Hcur' : currentUserEntry (handleBackToHero st) = Some e)
    by exact Hcur.
  destruct (tickState_current now (handleBackToHero st) e Hcur') as [H1 _].
  destruct (tickState_current now st e Hcur) as [H2 _].
  subst st'. rewrite H1, H2. repeat split.
Qed.

(** The ids the flag effect reports, in order. *)
Lemma tickState_reports (now : Z) (st : State) (e : QueueEntry) :
  currentUserEntry st = Some e ->
  flat_map (fun c => match c with UpdateFlag i => [i] | _ => [] end)
           (snd (tickState host now st))
  = map (fun _ => id e) (snd (tickEntry host now e)).
Proof.
  intro Hcur. unfold tickState. rewrite Hcur. unfold tickEntry.
  destruct (nle (newEstimatedWaitMinutes host now e) (ofZ 5)
            && ngt (newEstimatedWaitMinutes host now e) (ofZ 0)
            && negb (notifiedAt5Min e)) eqn:E.
  - apply andb_true_iff in E. destruct E as [_ E].
    apply negb_true_iff in E.
    cbn. unfold flagSyncEffect. cbn.
    rewrite String.eqb_refl, E. reflexivity.
  - cbn. unfold flagSyncEffect. cbn.
    rewrite String.eqb_refl, Bool.eqb_reflx. reflexivity.
Qed.

Lemma ticksState_reports (nows : list Z) :
  forall st e,
    currentUserEntry st = Some e ->
    flat_map (fun c => match c with UpdateFlag i => [i] | _ => [] end)
             (snd (ticksState host nows st))
    = map (fun _ => id e) (snd (fst (ticksState host nows st))).
Proof.
  induction nows as [| now rest IH]; intros st e Hcur; [reflexivity |].
  cbn [ticksState].
  pose proof (tickState_reports now st e Hcur) as Hone.
  destruct (tickState_current now st e Hcur) as [Hst Hfx].
  destruct (tickState host now st) as [[st1 fx] calls] eqn:E1.
  cbn [fst snd] in *.
  assert (Hcur1 : currentUserEntry st1
                  = Some (fst (tickEntry host now e)))
    by (rewrite Hst; reflexivity).
  pose proof (IH st1 _ Hcur1) as Hrest.
  destruct (ticksState host rest st1) as [[st2 fx'] calls'].
  cbn [fst snd] in *.
  rewrite flat_map_app, map_app, Hone, Hrest, Hfx, tickEntry_id.
  reflexivity.
Qed.

(** X14. Along any run of ticks the raised flag is reported to the remote
    store once for each alert the run raises, under the id of the current
    entry, and not otherwise; with no current entry nothing is raised and
    nothing is reported. *)
Theorem flag_is_reported_with_each_alert (nows : list Z) (st : State) :
  let fx := snd (fst (ticksState host nows st)) in
  let reported :=
    flat_map (fun c => match c with UpdateFlag i => [i] | _ => [] end)
             (snd (ticksState host nows st)) in
  match currentUserEntry st with
  | Some e => reported = map (fun _ => id e) fx
  | None => reported = [] /\ fx = []
  end.
Proof.
  cbv zeta. destruct (currentUserEntry st) as [e |] eqn:Hcur.
  - apply ticksState_reports. exact Hcur.
  - revert st Hcur.
    induction nows as [| now rest IH]; intros st Hcur;
      [split; reflexivity |].
    cbn [ticksState]. unfold tickState. rewrite Hcur.
    destruct (IH st Hcur) as [H1 H2].
    destruct (ticksState host rest st) as [[st2 fx'] calls'].
    cbn [fst snd app] in *. split; assumption.
Qed.

End Visit.

(** ** What the loaders return *)

Section Loaders.

Import JsString JsDate Json Persistence.

Variable host : Host.




End Loaders.

(** ** The default service date *)

Section DefaultDate.

Import JsString JsNumber JsDate Queue Reference.

Variable host : Host.

(** X17. The service date a join gives an entry when none is staged is the
    calendar date of the instant in UTC, and the component's own date
    parser reads it back as midnight UTC of that day: for every instant of
    the years 0 to 9999 the text is taken as a date-only date, never left
    to the host's fallback parser. *)
Theorem default_date_parses_to_its_day (t : Z) :
  -62167219200000 <= t < 253402300800000 ->
  iso_date_only (toISODate t) = Some (t / msPerDay)
  /\ Date_parse host (toISODate t) = Some (t / msPerDay * msPerDay)
  /\ resolveQueueDate None t = toISODate t.
Proof.
  intro Ht.
  pose proof (toISODate_names_its_day t Ht) as Hiso.
  split; [exact Hiso |]. split; [| reflexivity].
  unfold Date_parse. rewrite Hiso. apply TimeClip_in_range.
  assert (Hz : -719528 <= t / msPerDay <= 2932896).
  { unfold msPerDay. split.
    - apply Z.div_le_lower_bound; lia.
    - apply Z.lt_succ_r. apply Z.div_lt_upper_bound; lia. }
  unfold msPerDay in *. lia.
Qed.

End DefaultDate.

(* ------------------------------------------------------------------ *)
(** * The further properties on concrete visits *)

Module Checks.

Import JsString JsNumber JsDate Queue Display Lifecycle Reference Spec.
Import Scenario Hosts.



(** A service date the browser cannot read, with a slot whose two times
    match the pattern: the panel shows NaN:NaN:NaN. *)
Lemma unreadable_date_on_the_panel :
  let e := entryWith "tomorrow" (Some "6:00 PM – 6:30 PM") 1
                     (wallClock kolkata day 17 0) in
  let now := wallClock kolkata day 17 5 in
  parseSlotTimes kolkata (queueDate e) "6:00 PM – 6:30 PM"
  = Some (None, None)
  /\ formatWaitTime (fun _ => "")
       (estimatedWaitMinutes (fst (tickEntry kolkata now e)))
     = "NaN:NaN:NaN"
  /\ snd (tickEntry kolkata now e) = [].
Proof.
  cbv zeta.
  set (e := entryWith "tomorrow" (Some "6:00 PM – 6:30 PM") 1
                      (wallClock kolkata day 17 0)).
  assert (Hp : parseSlotTimes kolkata (queueDate e) "6:00 PM – 6:30 PM"
               = Some (None, None)) by reflexivity.
  split; [exact Hp |].
  destruct (invalid_start_is_shown_as_NaN kolkata (fun _ => "")
              (wallClock kolkata day 17 5) e "6:00 PM – 6:30 PM" None
              eq_refl eq_refl eq_refl Hp)
    as (H1 & _ & _ & H4 & _).
  split; [exact H1 | exact H4].
Defined.

(** Position 3 without a slot: the wait after twenty minutes is not above
    the wait after ten. *)
Lemma later_is_not_longer :
  let joined := wallClock kolkata day 17 0 in
  let e := entryWith "2024-01-15" None 3 joined in
  joined + 10 * 60000 <= joined + 20 * 60000
  /\ noMore (newEstimatedWaitMinutes kolkata (joined + 20 * 60000) e)
            (newEstimatedWaitMinutes kolkata (joined + 10 * 60000) e).
Proof.
  cbv zeta.
  assert (H : wallClock kolkata day 17 0 + 10 * 60000
              <= wallClock kolkata day 17 0 + 20 * 60000) by lia.
  split; [exact H |].
  exact (wait_never_increases kolkata _ _ _ H).
Defined.

(** Position 1 without a slot, joined at 5:00 PM: the wait is zero from
    5:15 PM on and not before; with the slot "6:00 PM – 6:30 PM" it is
    zero from 6:00 PM on. *)
Lemma zero_at_a_quarter_past :
  let joined := wallClock kolkata day 17 0 in
  let e := entryWith "2024-01-15" None 1 joined in
  let s := entryWith "2024-01-15" (Some "6:00 PM – 6:30 PM") 1 joined in
  same (newEstimatedWaitMinutes kolkata (wallClock kolkata day 17 15) e)
       (Num 0)
  /\ ~ same (newEstimatedWaitMinutes kolkata
               (wallClock kolkata day 17 14) e) (Num 0)
  /\ same (newEstimatedWaitMinutes kolkata (wallClock kolkata day 18 0) s)
          (Num 0)
  /\ ~ same (newEstimatedWaitMinutes kolkata
               (wallClock kolkata day 17 59) s) (Num 0).
Proof.
  cbv zeta.
  set (joined := wallClock kolkata day 17 0).
  set (e := entryWith "2024-01-15" None 1 joined).
  set (s := entryWith "2024-01-15" (Some "6:00 PM – 6:30 PM") 1 joined).
  assert (Hp : parseSlotTimes kolkata (queueDate s) "6:00 PM – 6:30 PM"
               = Some (Some (wallClock kolkata day 18 0),
                       Some (wallClock kolkata day 18 30)))
    by reflexivity.
  split; [| split; [| split]].
  - apply (proj1 (wait_is_zero_from_the_deadline kolkata e _)).
    + left; reflexivity.
    + vm_compute. discriminate.
  - intro H.
    apply (proj1 (wait_is_zero_from_the_deadline kolkata e _)) in H.
    + vm_compute in H. apply H. reflexivity.
    + left; reflexivity.
  - apply (proj2 (wait_is_zero_from_the_deadline kolkata s _)
             _ _ _ eq_refl eq_refl eq_refl Hp).
    lia.
  - intro H.
    apply (proj2 (wait_is_zero_from_the_deadline kolkata s _)
             _ _ _ eq_refl eq_refl eq_refl Hp) in H.
    vm_compute in H. apply H. reflexivity.
Defined.

(** Position 1 without a slot, joined at 5:00 PM, with ticks at 5:05,
    5:09 and 5:12: the wait is ten minutes at the first, three at the
    last, and the run raises the alert once. *)
Lemma notice_between_nine_and_twelve :
  let joined := wallClock kolkata day 17 0 in
  let e := entryWith "2024-01-15" None 1 joined in
  let t0 := joined + 5 * 60000 in
  let ts := [joined + 9 * 60000; joined + 12 * 60000] in
  paced (5 * 60000) t0 ts
  /\ aboveFive (newEstimatedWaitMinutes kolkata t0 e)
  /\ snd (ticks kolkata (t0 :: ts) (Some e))
     = [AlertTableReady None (ofZ 2)].
Proof.
  cbv zeta.
  set (joined := wallClock kolkata day 17 0).
  set (e := entryWith "2024-01-15" None 1 joined).
  assert (Hp : paced (5 * 60000) (joined + 5 * 60000)
                     [joined + 9 * 60000; joined + 12 * 60000])
    by (cbn [paced]; lia).
  assert (Ha : aboveFive
                 (newEstimatedWaitMinutes kolkata (joined + 5 * 60000) e))
    by reflexivity.
  split; [exact Hp |]. split; [exact Ha |].
  apply (notice_is_not_skipped kolkata e _ _ eq_refl Hp Ha).
  apply Exists_cons_tl, Exists_cons_hd.
  vm_compute. discriminate.
Defined.

(** A join with nothing staged: the tick at the instant of the join
    computes the fifteen minutes the entry was given. *)
Lemma first_tick_of_asha :
  let st := fresh None asha in
  let clock := clockAt 1705320000000 in
  let e := newEntry kolkata st clock in
  same (newEstimatedWaitMinutes kolkata (atPress clock) e) (Num 15)
  /\ same (estimatedWaitMinutes e) (Num 15).
Proof.
  cbv zeta.
  assert (H : same (estimatedWaitMinutes
                      (newEntry kolkata (fresh None asha)
                                (clockAt 1705320000000))) (Num 15))
    by reflexivity.
  split; [| exact H].
  apply (same_trans _ _ _
           (first_tick_agrees_with_join kolkata (fresh None asha)
              (clockAt 1705320000000) (or_introl eq_refl)) H).
Defined.

(** Asha joins an empty list and cancels while the remote store cannot
    be reached: the list is empty again. *)
Lemma asha_joins_and_cancels :
  let st := fresh (Some (staged "2024-01-15" "6:00 PM – 6:30 PM")) asha in
  let clock := clockAt 1705320000000 in
  let st1 := fst (handleJoinQueue kolkata st clock None) in
  let st2 := fst (handleCancelQueue st1 true 1705320060000 CancelThrows) in
  validForm (formData st)
  /\ queueDatabase st1 <> []
  /\ queueDatabase st2 = []
  /\ currentUserEntry st2 = None
  /\ formData st2 = Form.empty
  /\ pendingData st2 = None.
Proof.
  cbv zeta.
  set (st := fresh (Some (staged "2024-01-15" "6:00 PM – 6:30 PM")) asha).
  assert (Hv : validForm (formData st)) by (split; discriminate).
  split; [exact Hv |]. split; [discriminate |].
  exact (join_then_offline_cancel_restores_the_list
           kolkata st (clockAt 1705320000000) None 1705320060000
           CancelThrows Hv (Forall_nil _) (or_introl eq_refl)).
Defined.

(** After three joins the third guest cancels and Ravi joins again: his
    entry is for 2 guests and the date of the clock, 16 January 2024. *)
Lemma ravi_joins_after_a_cancellation :
  let st1 := fst (handleCancelQueue afterThreeJoins true 1705320180000
                                    RefreshThrows) in
  let st2 := typeContact (typeName st1 "Ravi") "ravi@example.org" in
  let clock := clockAt (1705320000000 + msPerDay) in
  let e := newEntry kolkata st2 clock in
  currentUserEntry afterThreeJoins <> None
  /\ guests e = ofZ 2
  /\ queueDate e = "2024-01-16"
  /\ timeSlot e = Some ""
  /\ name e = "Ravi".
Proof.
  cbv zeta.
  set (st1 := fst (handleCancelQueue afterThreeJoins true 1705320180000
                                     RefreshThrows)).
  set (st2 := typeContact (typeName st1 "Ravi") "ravi@example.org").
  set (clock := clockAt (1705320000000 + msPerDay)).
  set (e := newEntry kolkata st2 clock).
  assert (Hc : exists cur, currentUserEntry afterThreeJoins = Some cur)
    by (eexists; reflexivity).
  destruct Hc as [cur Hc].
  assert (Hin : In (RemoteJoin e)
                   (snd (handleJoinQueue kolkata st2 clock None)))
    by (left; reflexivity).
  destruct (rejoin_after_cancel_is_unstaged
              kolkata afterThreeJoins cur 1705320180000 RefreshThrows
              "Ravi" "ravi@example.org" clock None e Hc Hin)
    as (Hg & _ & _ & Hd & Hs & _ & _ & _ & _ & _ & Hn & _).
  split; [rewrite Hc; discriminate |].
  split; [exact Hg |]. split; [rewrite Hd; vm_compute; reflexivity |].
  split; [exact Hs | exact Hn].
Defined.

(** Asha and Ravi join in the same millisecond; Ravi cancels while the
    remote store cannot be reached, and Asha's entry is gone too. *)
Lemma two_joins_in_one_millisecond :
  let k := clockAt 1705320000000 in
  let st1 := typeContact (typeName (fresh None asha) "Asha")
                         "98400 00000" in
  let st2 := typeContact
               (typeName (fst (handleJoinQueue kolkata st1 k None)) "Ravi")
               "ravi@example.org" in
  let st3 := fst (handleJoinQueue kolkata st2 k None) in
  let st4 := fst (handleCancelQueue st3 true 1705320060000 CancelThrows) in
  validForm (formData st1) /\ validForm (formData st2)
  /\ map name (queueDatabase st3) = ["Asha"; "Ravi"]
  /\ queueDatabase st4 = [].
Proof.
  cbv zeta.
  set (k := clockAt 1705320000000).
  set (st1 := typeContact (typeName (fresh None asha) "Asha")
                          "98400 00000").
  set (st2 := typeContact
                (typeName (fst (handleJoinQueue kolkata st1 k None)) "Ravi")
                "ravi@example.org").
  assert (Hv1 : validForm (formData st1))
    by (split; vm_compute; discriminate).
  assert (Hv2 : validForm (formData st2))
    by (split; vm_compute; discriminate).
  split; [exact Hv1 |]. split; [exact Hv2 |].
  split; [vm_compute; reflexivity |].
  exact (same_millisecond_entries_are_cancelled_together
           kolkata (fresh None asha) "Asha" "98400 00000"
           "Ravi" "ravi@example.org" k k 1705320060000
           Hv1 Hv2 ltac:(vm_compute; discriminate)
           ltac:(vm_compute; discriminate) (Forall_nil _)).
Defined.

(** After three joins the guest goes back to the landing view; the next
    tick shows the status panel again. *)
Lemma panel_is_back_after_a_tick :
  let st := handleBackToHero afterThreeJoins in
  let st' := fst (fst (tickState kolkata 1705320180000 st)) in
  showStatus st = false /\ showForm st = false
  /\ showStatus st' = true /\ showForm st' = true.
Proof.
  cbv zeta.
  assert (Hc : exists cur, currentUserEntry afterThreeJoins = Some cur)
    by (eexists; reflexivity).
  destruct Hc as [cur Hc].
  destruct (tick_brings_the_status_panel_back
              kolkata afterThreeJoins cur 1705320180000 Hc)
    as (H1 & H2 & _).
  split; [reflexivity |]. split; [reflexivity |].
  split; [exact H1 | exact H2].
Defined.

(** The afternoon of 15 January 2024: the default service date is
    "2024-01-15" and is read back as midnight UTC of that day. *)
Lemma default_date_of_an_afternoon :
  let t := 1705320000000 in
  -62167219200000 <= t < 253402300800000
  /\ toISODate t = "2024-01-15"
  /\ Date_parse kolkata (toISODate t) = Some (day * msPerDay).
Proof.
  cbv zeta.
  assert (H : -62167219200000 <= 1705320000000 < 253402300800000) by lia.
  split; [exact H |]. split; [reflexivity |].
  exact (proj1 (proj2 (default_date_parses_to_its_day
                         kolkata 1705320000000 H))).
Defined.

End Checks.
